(** * Order, cart and payment lifecycle of the e-commerce API

    A shallow embedding of the service layer ([OrderService], [CartService])
    and of the model hooks it runs through (the [pre('save')] and
    [pre('findOneAndUpdate')] middleware of the Order, Payment, Cart and
    Product schemas), followed by the properties of the specification.

    Conventions of the embedding.
    - A collection is the list of its documents in insertion order; [_id] is
      the unique key, so replace-by-id and delete-by-id address one document.
    - Quantities, stock and timestamps (milliseconds since the epoch) are
      [Z].  Money is [Q]: the doubles of the program are taken as exact
      numbers, so a statement on a sum or a mean of amounts holds of the
      program up to the rounding of its additions and divisions.
    - An [async] function is a computation [M A] over the database: it
      returns a value or throws, and what it wrote before throwing stays
      written (nothing in the source opens a transaction).
    - The object-document mapper is modelled as far as the source programs it:
      [Model.create] and [doc.save] run the schema's [pre('save')] hooks in
      registration order ([isNew] and [isModified] as the hooks read them: on
      [create] every supplied path is new and modified), and
      [findByIdAndUpdate] runs the [pre('findOneAndUpdate')] hooks; a query
      on an undefined [_id] matches no document.  The [pre(/^find/)] hooks
      only populate references and are left out.
    - Documents carry the fields the services and hooks read and write.  Of
      the declarative part of the schemas, [Payment.create] and
      [Order.create] run the validation of the fields modelled, a payment
      keeps the paths of its strict schema only, and the insert of a payment
      respects the unique index on [paymentDetails.transactionId], which
      Mongoose builds when the model is compiled ([autoIndex] is not turned
      off by [connectDB]).  Where a service assigns a status that the schema
      can refuse, the check is written in the service.  Carts and products
      are taken to satisfy their schemas. *)

From Stdlib Require Import ZArith QArith List String Bool Lia DecimalString.
From Stdlib Require Import Permutation Sorted Lqa.
Import ListNotations.
Local Open Scope string_scope.
Local Open Scope list_scope.
Local Open Scope Z_scope.

(** ** Identifiers, errors *)

Definition ObjectId := N.

(** [utils/AppError.js]: [AppError(message, statusCode)] and its subclass
    [InventoryError(productId, requested, available)] (status 400).  A
    [TypeError] is what the runtime throws on a property read of [null].
    A [ValidationError] is what [Model.create] and [doc.save()] reject a
    document with when it violates its schema: the name of the model and,
    for each invalid path, the message of the validator.  A
    [MongoServerError] is what the driver throws for a write the server
    refuses; code 11000 is a duplicate key in the unique index it names.  The
    last three carry no [statusCode]. *)
Inductive Error : Type :=
| AppError (message : string) (statusCode : Z)
| InventoryError (productId : ObjectId) (requested available : Z)
| TypeError (message : string)
| ValidationError (model : string) (errors : list (string * string))
| MongoServerError (code : Z) (index : string).

Definition statusCode (e : Error) : Z :=
  match e with
  | AppError _ c => c
  | InventoryError _ _ _ => 400
  | TypeError _ => 500
  | ValidationError _ _ => 500
  | MongoServerError _ _ => 500
  end.

(** Template literals: numbers and ids printed in decimal. *)
Definition showZ (z : Z) : string := NilZero.string_of_int (Z.to_int z).
Definition showId (i : ObjectId) : string := NilZero.string_of_uint (N.to_uint i).

(** ** Documents *)

Module Product.
(** [models/Product.js]: the fields the order and cart code touches. *)
Record t : Type := mk {
  _id : ObjectId;
  name : string;
  price : Q;
  stock : Z;
  sold : Z;
  isActive : bool
}.

Definition set_counters (p : t) (stock' sold' : Z) : t :=
  mk (_id p) (name p) (price p) stock' sold' (isActive p).
End Product.

Module Cart.
(** [models/Cart.js]: [cartItemSchema] and [cartSchema]. *)
Record Item : Type := mkItem {
  productId : ObjectId;
  name : string;
  quantity : Z;
  priceAtAddition : Q
}.

Record t : Type := mk {
  _id : ObjectId;
  userId : option ObjectId;
  items : list Item
}.

Definition set_quantity (i : Item) (q : Z) : Item :=
  mkItem (productId i) (name i) q (priceAtAddition i).

Definition set_items (c : t) (l : list Item) : t :=
  mk (_id c) (userId c) l.
End Cart.

Module Order.
(** [models/Order.js]: [orderItemSchema], [paymentInfoSchema],
    [orderSchema].  Statuses are the strings the code writes. *)
Record Item : Type := mkItem {
  product : ObjectId;
  name : string;
  quantity : Z;
  price : Q
}.

Record PaymentInfo : Type := mkPaymentInfo {
  id : ObjectId;
  method : string;
  status : string;
  amount : Q;
  paidAmount : Q
}.

Record t : Type := mk {
  _id : ObjectId;
  user : ObjectId;
  orderNumber : option (Z * Z);
  orderItems : list Item;
  shippingInfo : string;
  paymentInfo : PaymentInfo;
  itemsPrice : Q;
  totalPrice : Q;
  paymentDue : Q;
  orderStatus : string;
  isConfirmed : bool;
  paymentRef : option ObjectId;
  deliveredAt : option Z;
  isCanceled : bool;
  canceledAt : option Z;
  createdAt : Z
}.

(** The update document of [findByIdAndUpdate]: a path left [None] is not
    written. *)
Record Update : Type := mkUpdate {
  upd_paymentInfo_status : option string;
  upd_orderStatus : option string
}.

Definition set__id (o : t) (i : ObjectId) : t :=
  mk i (user o) (orderNumber o) (orderItems o) (shippingInfo o)
     (paymentInfo o) (itemsPrice o) (totalPrice o) (paymentDue o)
     (orderStatus o) (isConfirmed o) (paymentRef o) (deliveredAt o)
     (isCanceled o) (canceledAt o) (createdAt o).

Definition set_orderNumber (o : t) (n : option (Z * Z)) : t :=
  mk (_id o) (user o) n (orderItems o) (shippingInfo o)
     (paymentInfo o) (itemsPrice o) (totalPrice o) (paymentDue o)
     (orderStatus o) (isConfirmed o) (paymentRef o) (deliveredAt o)
     (isCanceled o) (canceledAt o) (createdAt o).

Definition set_orderStatus (o : t) (s : string) : t :=
  mk (_id o) (user o) (orderNumber o) (orderItems o) (shippingInfo o)
     (paymentInfo o) (itemsPrice o) (totalPrice o) (paymentDue o)
     s (isConfirmed o) (paymentRef o) (deliveredAt o)
     (isCanceled o) (canceledAt o) (createdAt o).

Definition set_paymentInfo (o : t) (pi : PaymentInfo) : t :=
  mk (_id o) (user o) (orderNumber o) (orderItems o) (shippingInfo o)
     pi (itemsPrice o) (totalPrice o) (paymentDue o)
     (orderStatus o) (isConfirmed o) (paymentRef o) (deliveredAt o)
     (isCanceled o) (canceledAt o) (createdAt o).

Definition set_paymentDue (o : t) (d : Q) : t :=
  mk (_id o) (user o) (orderNumber o) (orderItems o) (shippingInfo o)
     (paymentInfo o) (itemsPrice o) (totalPrice o) d
     (orderStatus o) (isConfirmed o) (paymentRef o) (deliveredAt o)
     (isCanceled o) (canceledAt o) (createdAt o).

Definition set_status (pi : PaymentInfo) (s : string) : PaymentInfo :=
  mkPaymentInfo (id pi) (method pi) s (amount pi) (paidAmount pi).

Definition set_paidAmount (pi : PaymentInfo) (a : Q) : PaymentInfo :=
  mkPaymentInfo (id pi) (method pi) (status pi) (amount pi) a.

(** Applying an update document to a stored order. *)
Definition apply (u : Update) (o : t) : t :=
  let o1 := match upd_paymentInfo_status u with
            | Some s => set_paymentInfo o (set_status (paymentInfo o) s)
            | None => o
            end in
  match upd_orderStatus u with
  | Some s => set_orderStatus o1 s
  | None => o1
  end.
Definition set_deliveredAt (o : t) (at_ : Z) : t :=
  mk (_id o) (user o) (orderNumber o) (orderItems o) (shippingInfo o)
     (paymentInfo o) (itemsPrice o) (totalPrice o) (paymentDue o)
     (orderStatus o) (isConfirmed o) (paymentRef o) (Some at_)
     (isCanceled o) (canceledAt o) (createdAt o).
End Order.

Module Payment.
(** [paymentSchema], a strict schema: of the paths it declares, those the
    order service and the pre-save hook touch.  [transactionId] is
    [paymentDetails.transactionId], [None] for a payment stored without
    payment details; the schema declares it [unique]. *)
Record t : Type := mk {
  _id : ObjectId;
  order : ObjectId;
  user : ObjectId;
  status : string;
  transactionId : option string
}.

(** The object literal the order service hands to [Payment.create]:
    [{ user, order, amount, status, type }].  The schema has no path
    [amount] and no path [type], so neither reaches the stored document. *)
Record Doc : Type := mkDoc {
  d_user : ObjectId;
  d_order : option ObjectId;
  d_amount : Q;
  d_status : string;
  d_type : string
}.

Definition set_order (p : t) (o : ObjectId) : t :=
  mk (_id p) o (user p) (status p) (transactionId p).
End Payment.

(** *** The declarative constraints of the schemas

    [Model.create] and [doc.save()] validate a document against its schema
    before the first [pre('save')] hook runs, and reject it with a
    [ValidationError] when a new or modified path violates a constraint.
    The constraints on the fields modelled here are collected below, so that
    a property can be stated for the documents that pass them. *)

Definition oneOf (values : list string) (s : string) : bool :=
  existsb (String.eqb s) values.

(** The [enum] of [orderStatus] in [orderSchema]. *)
Definition orderStatuses : list string :=
  ["processing"; "shipped"; "delivered"; "cancelled"; "returned"].

(** [orderItemSchema]: a name, a quantity of at least 1, a price of at least
    0.01. *)
Definition Order_validItem (item : Order.Item) : bool :=
  negb (String.eqb (Order.name item) "")
  && (1 <=? Order.quantity item)
  && Qle_bool (1 # 100) (Order.price item).

(** [orderSchema] with [paymentInfoSchema]. *)
Definition Order_valid (doc : Order.t) : bool :=
  forallb Order_validItem (Order.orderItems doc)
  && oneOf ["card"; "paypal"; "cod"] (Order.method (Order.paymentInfo doc))
  && oneOf ["unpaid"; "partial"; "paid"; "refunded"]
           (Order.status (Order.paymentInfo doc))
  && oneOf orderStatuses (Order.orderStatus doc).

(** The message of the built-in [enum] validator. *)
Definition enumMessage (value path : string) : string :=
  ("`" ++ value ++ "` is not a valid enum value for path `" ++ path ++ "`.")%string.

(** What the validation of a new order reports when [Order_valid] fails: the
    invalid paths with the messages of the schema, in the order of the
    schema. *)
Definition Order_itemErrors (i : Z) (item : Order.Item) : list (string * string) :=
  let path := ("orderItems." ++ showZ i)%string in
  (if String.eqb (Order.name item) ""
   then [((path ++ ".name")%string, "Order item must have a name")] else [])
  ++ (if 1 <=? Order.quantity item
      then [] else [((path ++ ".quantity")%string, "Quantity must be at least 1")])
  ++ (if Qle_bool (1 # 100) (Order.price item)
      then [] else [((path ++ ".price")%string, "Price must be at least 0.01")]).

Fixpoint Order_itemsErrors (i : Z) (items : list Order.Item)
  : list (string * string) :=
  match items with
  | [] => []
  | item :: rest => Order_itemErrors i item ++ Order_itemsErrors (i + 1) rest
  end.

Definition Order_errors (doc : Order.t) : list (string * string) :=
  Order_itemsErrors 0 (Order.orderItems doc)
  ++ (if oneOf ["card"; "paypal"; "cod"] (Order.method (Order.paymentInfo doc))
      then []
      else [("paymentInfo.method",
             enumMessage (Order.method (Order.paymentInfo doc)) "method")])
  ++ (if oneOf ["unpaid"; "partial"; "paid"; "refunded"]
               (Order.status (Order.paymentInfo doc))
      then []
      else [("paymentInfo.status",
             enumMessage (Order.status (Order.paymentInfo doc)) "status")])
  ++ (if oneOf orderStatuses (Order.orderStatus doc)
      then []
      else [("orderStatus", enumMessage (Order.orderStatus doc) "orderStatus")]).

(** [cartItemSchema]: a name, a quantity of at least 1, a price of at least
    0.01. *)
Definition Cart_validItem (item : Cart.Item) : bool :=
  negb (String.eqb (Cart.name item) "")
  && (1 <=? Cart.quantity item)
  && Qle_bool (1 # 100) (Cart.priceAtAddition item).

(** The [enum] of [status] in [paymentSchema]. *)
Definition paymentStatuses : list string :=
  ["pending"; "processing"; "paid"; "failed"; "refunded"; "disputed"].

(** What the validation of a new payment reports: [order] is required, and
    [status] is one of [paymentStatuses]. *)
Definition Payment_errors (doc : Payment.Doc) : list (string * string) :=
  match Payment.d_order doc with
  | None => [("order", "Payment must belong to an order")]
  | Some _ => []
  end
  ++ (if oneOf paymentStatuses (Payment.d_status doc)
      then [] else [("status", "Invalid payment status")]).

(** A payment stored without payment details: its key in the unique index on
    [paymentDetails.transactionId] is [null]. *)
Definition bare (p : Payment.t) : bool :=
  match Payment.transactionId p with
  | None => true
  | Some _ => false
  end.

(** ** The database and the monad of [async] functions *)

Record DB : Type := mkDB {
  products : list Product.t;
  carts : list Cart.t;
  orders : list Order.t;
  payments : list Payment.t;
  nextId : ObjectId
}.

Inductive Res (A : Type) : Type :=
| Ok (a : A)
| Throw (e : Error).
Arguments Ok {A} a.
Arguments Throw {A} e.

Definition M (A : Type) : Type := DB -> Res A * DB.

Definition ret {A} (a : A) : M A := fun db => (Ok a, db).
Definition throw {A} (e : Error) : M A := fun db => (Throw e, db).
Definition bind {A B} (m : M A) (k : A -> M B) : M B :=
  fun db => match m db with
            | (Ok a, db') => k a db'
            | (Throw e, db') => (Throw e, db')
            end.

Notation "x <- m ;; k" := (bind m (fun x => k))
  (at level 61, m at next level, right associativity).
Notation "m ;;; k" := (bind m (fun _ => k))
  (at level 61, right associativity).

(** [Promise.all(items.map(async item => ...))]: every callback runs to its
    end whether or not another one throws; the whole rejects with the first
    error.  Callbacks are run one after the other in list order, which is
    what the event loop amounts to for callbacks that work on different
    documents; callbacks on the same document interleave (each reads before
    any writes), and the properties that go through [promiseAll] take the
    lines of an order to name pairwise distinct products. *)
Fixpoint promiseAll (fs : list (M unit)) : M unit :=
  match fs with
  | [] => ret tt
  | f :: rest =>
      fun db => match f db with
                | (Ok _, db1) => promiseAll rest db1
                | (Throw e, db1) => (Throw e, snd (promiseAll rest db1))
                end
  end.

(** [for (const x of xs) { await f(x) }]: stops at the first throw. *)
Fixpoint forOf {A} (f : A -> M unit) (xs : list A) : M unit :=
  match xs with
  | [] => ret tt
  | x :: rest => f x ;;; forOf f rest
  end.

(** ** Collections *)

Definition replaceById {A} (idOf : A -> ObjectId) (x : A) (l : list A) : list A :=
  map (fun y => if N.eqb (idOf y) (idOf x) then x else y) l.

Definition deleteById {A} (idOf : A -> ObjectId) (i : ObjectId) (l : list A) : list A :=
  filter (fun y => negb (N.eqb (idOf y) i)) l.

Definition set_products (db : DB) (l : list Product.t) : DB :=
  mkDB l (carts db) (orders db) (payments db) (nextId db).
Definition set_carts (db : DB) (l : list Cart.t) : DB :=
  mkDB (products db) l (orders db) (payments db) (nextId db).
Definition set_orders (db : DB) (l : list Order.t) : DB :=
  mkDB (products db) (carts db) l (payments db) (nextId db).
Definition set_payments (db : DB) (l : list Payment.t) : DB :=
  mkDB (products db) (carts db) (orders db) l (nextId db).
Definition bump (db : DB) : DB :=
  mkDB (products db) (carts db) (orders db) (payments db) (N.succ (nextId db)).

(** *** Product *)

Definition findProduct (i : ObjectId) (l : list Product.t) : option Product.t :=
  find (fun p => N.eqb (Product._id p) i) l.

Definition Product_findById (i : ObjectId) : M (option Product.t) :=
  fun db => (Ok (findProduct i (products db)), db).

(** [productSchema.pre('save')]: of the three hooks (slug, rating, price) the
    price check is the one that can reject. *)
Definition Product_preSave (this : Product.t) : M unit :=
  if negb (Qle_bool 0 (Product.price this))
  then throw (AppError "Price cannot be less than 0" 400)
  else ret tt.

(** [product.save({ validateBeforeSave: false })] on a loaded document. *)
Definition Product_save (this : Product.t) : M unit :=
  Product_preSave this ;;;
  fun db => (Ok tt, set_products db (replaceById Product._id this (products db))).

(** [Product.findByIdAndUpdate(id, { $inc: { stock, sold } })]. *)
Definition Product_findByIdAndUpdate_inc (i : ObjectId) (dStock dSold : Z) : M unit :=
  fun db =>
    (Ok tt,
     set_products db
       (map (fun p => if N.eqb (Product._id p) i
                      then Product.set_counters p (Product.stock p + dStock)
                                                  (Product.sold p + dSold)
                      else p)
            (products db))).

(** *** Order *)

Definition findOrder (i : ObjectId) (l : list Order.t) : option Order.t :=
  find (fun o => N.eqb (Order._id o) i) l.

(** [Order.findOne({ _id: orderId, user: userId })]: the filter names both
    the order and its owner. *)
Definition findOwnedOrder (orderId userId : ObjectId) (l : list Order.t)
  : option Order.t :=
  find (fun o => N.eqb (Order._id o) orderId && N.eqb (Order.user o) userId) l.

Definition Order_findOne (orderId userId : ObjectId) : M (option Order.t) :=
  fun db => (Ok (findOwnedOrder orderId userId (orders db)), db).

(** [this.model.findOne(this.getQuery())] for the query [{ _id: id }] of
    [findByIdAndUpdate(id, ...)]; an undefined id matches no document. *)
Definition Order_findOneById (i : option ObjectId) : M (option Order.t) :=
  fun db =>
    (Ok (match i with
         | Some i => findOrder i (orders db)
         | None => None
         end),
     db).

Definition Order_countDocuments : M Z :=
  fun db => (Ok (Z.of_nat (List.length (orders db))), db).

(** [orderSchema.pre('save')], first hook: the order number
    [ORD-${Date.now()}-${count + 1}], kept as the pair of its two numbers. *)
Definition Order_preSave_orderNumber (now : Z) (isNew : bool) (this : Order.t)
  : M Order.t :=
  if negb isNew then ret this
  else count <- Order_countDocuments ;;
       ret (Order.set_orderNumber this (Some (now, count + 1))).

(** The callback of the second [pre('save')] hook, one order line. *)
Definition reserveItem (item : Order.Item) : M unit :=
  product <- Product_findById (Order.product item) ;;
  match product with
  | None =>
      throw (AppError ("Product " ++ showId (Order.product item) ++ " not found")%string 404)
  | Some product =>
      if Product.stock product <? Order.quantity item
      then throw (InventoryError (Order.product item) (Order.quantity item)
                                 (Product.stock product))
      else Product_save (Product.set_counters product
                           (Product.stock product - Order.quantity item)
                           (Product.sold product + Order.quantity item))
  end.

(** [orderSchema.pre('save')], second hook: reduce product stock on order
    creation. *)
Definition Order_preSave_reduceStock (isModified_orderItems isNew : bool)
  (this : Order.t) : M unit :=
  if negb isModified_orderItems || negb isNew then ret tt
  else promiseAll (map reserveItem (Order.orderItems this)).

(** [Order.create(doc)]: a new document; the validation, both hooks, then
    the insert. *)
Definition Order_create (now : Z) (doc : Order.t) : M Order.t :=
  fun db =>
    if Order_valid doc
    then
      let this := Order.set__id doc (nextId db) in
      (this <- Order_preSave_orderNumber now true this ;;
       Order_preSave_reduceStock true true this ;;;
       fun db' => (Ok this, bump (set_orders db' (orders db' ++ [this])))) db
    else (Throw (ValidationError "Order" (Order_errors doc)), db).

(** [order.save()] on a document loaded by a query: it is not new and its
    [orderItems] are untouched, so both hooks pass.  The validation of the
    paths a caller has modified is written where the caller assigns a value
    that the schema can refuse. *)
Definition Order_save (now : Z) (this : Order.t) : M unit :=
  this <- Order_preSave_orderNumber now false this ;;
  Order_preSave_reduceStock false false this ;;;
  fun db => (Ok tt, set_orders db (replaceById Order._id this (orders db))).

(** The callback of the [pre('findOneAndUpdate')] hook, one order line. *)
Definition restockItem (item : Order.Item) : M unit :=
  product <- Product_findById (Order.product item) ;;
  match product with
  | None =>
      throw (AppError ("Product " ++ showId (Order.product item) ++ " not found")%string 404)
  | Some product =>
      Product_save (Product.set_counters product
                      (Product.stock product + Order.quantity item)
                      (Product.sold product - Order.quantity item))
  end.

(** [orderSchema.pre('findOneAndUpdate')]: restore product stock on cancel. *)
Definition Order_preFindOneAndUpdate (i : option ObjectId) (update : Order.Update)
  : M unit :=
  order <- Order_findOneById i ;;
  match order with
  | None => throw (AppError "Order not found" 404)
  | Some order =>
      if match Order.upd_orderStatus update with
         | Some s => String.eqb s "cancelled"
         | None => false
         end
         && negb (String.eqb (Order.orderStatus order) "cancelled")
      then promiseAll (map restockItem (Order.orderItems order))
      else ret tt
  end.

(** [Order.findByIdAndUpdate(id, update)]: the hook, then the write. *)
Definition Order_findByIdAndUpdate (i : option ObjectId) (update : Order.Update)
  : M unit :=
  Order_preFindOneAndUpdate i update ;;;
  fun db =>
    (Ok tt,
     set_orders db
       (map (fun o => if match i with
                         | Some i => N.eqb (Order._id o) i
                         | None => false
                         end
                      then Order.apply update o else o)
            (orders db))).

(** *** Payment *)

(** [paymentSchema.pre('save')]: sync with the order.  The third arm of the
    conditional reads [this.orderStatus], a path a payment does not have. *)
Definition Payment_preSave (isModified_status : bool) (this : Payment.t) : M unit :=
  if isModified_status
  then Order_findByIdAndUpdate (Some (Payment.order this))
         (Order.mkUpdate
            (Some (Payment.status this))
            (if String.eqb (Payment.status this) "paid" then Some "processing"
             else if String.eqb (Payment.status this) "refunded"
                  then Some "refunded"
                  else None))
  else ret tt.

(** [Payment.create(doc)]: the paths of the schema are kept and validated,
    the pre-save hook runs, and the document is inserted.  The insert is
    refused when the unique index on [paymentDetails.transactionId] holds the
    key of the document already: a payment without payment details cannot be
    stored beside another one. *)
Definition Payment_create (doc : Payment.Doc) : M Payment.t :=
  fun db =>
    match Payment.d_order doc, Payment_errors doc with
    | Some order, [] =>
        let this :=
          Payment.mk (nextId db) order (Payment.d_user doc) (Payment.d_status doc)
                     None in
        (Payment_preSave true this ;;;
         fun db' =>
           if existsb bare (payments db')
           then (Throw (MongoServerError 11000 "paymentDetails.transactionId_1"),
                 db')
           else (Ok this, bump (set_payments db' (payments db' ++ [this])))) db
    | _, errors => (Throw (ValidationError "Payment" errors), db)
    end.

(** [payment.save()] after [payment.order = order._id]: status untouched. *)
Definition Payment_save (this : Payment.t) : M unit :=
  Payment_preSave false this ;;;
  fun db => (Ok tt, set_payments db (replaceById Payment._id this (payments db))).

(** *** Cart *)

Definition findCart (i : ObjectId) (l : list Cart.t) : option Cart.t :=
  find (fun c => N.eqb (Cart._id c) i) l.

Definition Cart_findById (i : ObjectId) : M (option Cart.t) :=
  fun db => (Ok (findCart i (carts db)), db).

Definition ownedBy (userId : ObjectId) (c : Cart.t) : bool :=
  match Cart.userId c with
  | Some u => N.eqb u userId
  | None => false
  end.

(** [Cart.findOne({ userId })]. *)
Definition Cart_findOne (userId : ObjectId) : M (option Cart.t) :=
  fun db => (Ok (find (ownedBy userId) (carts db)), db).

(** The body of the loop of the second [cartSchema.pre('save')] hook. *)
Definition validateItem (item : Cart.Item) : M unit :=
  product <- Product_findById (Cart.productId item) ;;
  match product with
  | None =>
      throw (AppError ("Product " ++ showId (Cart.productId item) ++ " not found")%string
                      404)
  | Some product =>
      if Product.stock product <? Cart.quantity item
      then throw (AppError ("Insufficient stock for " ++ Product.name product
                            ++ ". Available: " ++ showZ (Product.stock product)
                            ++ ", Requested: " ++ showZ (Cart.quantity item))%string
                           400)
      else ret tt
  end.

(** [cartSchema.pre('save')]: the timestamp hook writes [updatedAt], which no
    operation reads; the second hook validates every line against the
    product's stock. *)
Definition Cart_preSave (this : Cart.t) : M unit :=
  forOf validateItem (Cart.items this).

(** [Cart.create({ userId, items })]. *)
Definition Cart_create (userId : option ObjectId) (items : list Cart.Item) : M Cart.t :=
  fun db =>
    let this := Cart.mk (nextId db) userId items in
    (Cart_preSave this ;;;
     fun db' => (Ok this, bump (set_carts db' (carts db' ++ [this])))) db.

(** [cart.save()]. *)
Definition Cart_save (this : Cart.t) : M unit :=
  Cart_preSave this ;;;
  fun db => (Ok tt, set_carts db (replaceById Cart._id this (carts db))).

(** [cartSchema.methods.findItem], on the lines of a cart. *)
Definition findItem (productId : ObjectId) (items : list Cart.Item)
  : option Cart.Item :=
  find (fun item => N.eqb (Cart.productId item) productId) items.

(** What [validateItem] accepts: the product exists and its stock covers the
    line. *)
Definition inStock (products : list Product.t) (item : Cart.Item) : bool :=
  match findProduct (Cart.productId item) products with
  | Some product => negb (Product.stock product <? Cart.quantity item)
  | None => false
  end.

(** The lines of the cart a query returned, none when it returned [null]. *)
Definition itemsOf (cart : option Cart.t) : list Cart.Item :=
  match cart with
  | Some cart => Cart.items cart
  | None => []
  end.

(** [Cart.findByIdAndDelete(id)]. *)
Definition Cart_findByIdAndDelete (i : ObjectId) : M unit :=
  fun db => (Ok tt, set_carts db (deleteById Cart._id i (carts db))).



(** *** Further queries of the services *)

(** [Order.findById(id)]. *)
Definition Order_findById (i : ObjectId) : M (option Order.t) :=
  Order_findOneById (Some i).

(** [order.deleteOne()]. *)
Definition Order_deleteOne (this : Order.t) : M unit :=
  fun db => (Ok tt, set_orders db (deleteById Order._id (Order._id this) (orders db))).

(** An update of the first document a filter matches. *)
Fixpoint updateFirst {A} (f : A -> bool) (g : A -> A) (l : list A) : list A :=
  match l with
  | [] => []
  | x :: rest => if f x then g x :: rest else x :: updateFirst f g rest
  end.

(** [Cart.findOneAndUpdate({ userId }, { $set: { items } })]; the cart schema
    registers no hook on updates. *)
Definition Cart_findOneAndUpdate_items (userId : ObjectId) (items : list Cart.Item)
  : M unit :=
  fun db =>
    (Ok tt,
     set_carts db
       (updateFirst (ownedBy userId) (fun c => Cart.set_items c items) (carts db))).

(** [Cart.findByIdAndUpdate(id, { $set: { items } })]. *)
Definition Cart_findByIdAndUpdate_items (i : ObjectId) (items : list Cart.Item)
  : M unit :=
  fun db =>
    (Ok tt,
     set_carts db
       (map (fun c => if N.eqb (Cart._id c) i then Cart.set_items c items else c)
            (carts db))).

(** The virtuals [total] and [itemCount] of [cartSchema]. *)
Definition Cart_total (items : list Cart.Item) : Q :=
  fold_left (fun total item =>
               total + Cart.priceAtAddition item * inject_Z (Cart.quantity item))%Q
            items 0%Q.

Definition Cart_itemCount (items : list Cart.Item) : Z :=
  fold_left (fun count item => count + Cart.quantity item) items 0.

(** ** Monthly sales: the two aggregation pipelines *)

(** [$year] and [$month] of a date (UTC), from its milliseconds since the
    epoch, by the usual days-to-civil-date computation. *)
Definition utcYearMonth (ms : Z) : Z * Z :=
  let z := ms / 86400000 + 719468 in
  let era := z / 146097 in
  let doe := z - era * 146097 in
  let yoe := (doe - doe / 1460 + doe / 36524 - doe / 146096) / 365 in
  let doy := doe - (365 * yoe + yoe / 4 - yoe / 100) in
  let mp := (5 * doy + 2) / 153 in
  let m := if mp <? 10 then mp + 3 else mp - 9 in
  (if m <=? 2 then yoe + era * 400 + 1 else yoe + era * 400, m).

Definition utcMonth (ms : Z) : Z := snd (utcYearMonth ms).

Module Aggregate.

(** One output document of a [$group] stage with the accumulators
    [{ $sum: '$totalPrice' }] and [{ $sum: 1 }].  The sum of the prices is
    taken exactly; the server adds doubles, one after the other in the order
    of the documents. *)
Record Group (K : Type) : Type := mkGroup {
  key : K;
  total : Q;
  count : Z
}.
Arguments mkGroup {K} key total count.
Arguments key {K} g.
Arguments total {K} g.
Arguments count {K} g.

Section Stages.
Context {K : Type} (eqb leb : K -> K -> bool) (keyOf : Order.t -> K).

Fixpoint accumulate (k : K) (v : Q) (acc : list (Group K)) : list (Group K) :=
  match acc with
  | [] => [mkGroup k (0 + v)%Q (0 + 1)]
  | g :: rest =>
      if eqb (key g) k
      then mkGroup (key g) (total g + v)%Q (count g + 1) :: rest
      else g :: accumulate k v rest
  end.

(** [$group]: one document per distinct key. *)
Definition group (docs : list Order.t) : list (Group K) :=
  fold_left (fun acc o => accumulate (keyOf o) (Order.totalPrice o) acc) docs [].

Fixpoint insert (g : Group K) (sorted : list (Group K)) : list (Group K) :=
  match sorted with
  | [] => [g]
  | h :: rest => if leb (key g) (key h) then g :: h :: rest else h :: insert g rest
  end.

(** [$sort] ascending on the key. *)
Definition sort (gs : list (Group K)) : list (Group K) :=
  fold_right insert [] gs.

End Stages.

(** The sum of the [total] of the groups whose key satisfies [P], and the sum
    of [totalPrice] over the documents whose key does. *)
Definition totalWhere {K : Type} (P : K -> bool) (gs : list (Group K)) : Q :=
  fold_right (fun g s => if P (key g) then total g + s else s)%Q 0%Q gs.

Definition docTotal {K : Type} (keyOf : Order.t -> K) (P : K -> bool)
  (docs : list Order.t) : Q :=
  fold_right (fun o s => if P (keyOf o) then Order.totalPrice o + s else s)%Q
             0%Q docs.

(** The same for the [count] of the groups and the number of documents. *)
Definition countWhere {K : Type} (P : K -> bool) (gs : list (Group K)) : Z :=
  fold_right (fun g s => if P (key g) then count g + s else s) 0 gs.

Definition docCount {K : Type} (keyOf : Order.t -> K) (P : K -> bool)
  (docs : list Order.t) : Z :=
  fold_right (fun o s => if P (keyOf o) then 1 + s else s) 0 docs.

End Aggregate.

Module OrderStatics.

(** The [$project] stage of [orderSchema.statics.getMonthlySales]. *)
Record Row : Type := mkRow {
  year : Z;
  month : Z;
  totalSales : Q;
  count : Z
}.

(** [{ $match: { orderStatus: 'delivered' } }]. *)
Definition matches (o : Order.t) : bool :=
  String.eqb (Order.orderStatus o) "delivered".

Definition keyOf (o : Order.t) : Z * Z := utcYearMonth (Order.createdAt o).

Definition key_eqb (a b : Z * Z) : bool :=
  (fst a =? fst b) && (snd a =? snd b).

(** [{ $sort: { '_id.year': 1, '_id.month': 1 } }]. *)
Definition key_leb (a b : Z * Z) : bool :=
  (fst a <? fst b) || ((fst a =? fst b) && (snd a <=? snd b)).

Definition project (g : Aggregate.Group (Z * Z)) : Row :=
  mkRow (fst (Aggregate.key g)) (snd (Aggregate.key g))
        (Aggregate.total g) (Aggregate.count g).

Definition getMonthlySales : M (list Row) :=
  fun db =>
    (Ok (map project
           (Aggregate.sort key_leb
              (Aggregate.group key_eqb keyOf (filter matches (orders db))))),
     db).

(** The total reported for month [m], over all years. *)
Definition monthTotal (m : Z) (rows : list Row) : Q :=
  fold_right (fun r s => if month r =? m then totalSales r + s else s)%Q 0%Q rows.

(** The number of orders reported for month [m], over all years. *)
Definition monthCount (m : Z) (rows : list Row) : Z :=
  fold_right (fun r s => if month r =? m then count r + s else s) 0 rows.

End OrderStatics.

(** ** [OrderService] *)

Module OrderService.

(** The [paymentInfo] argument of [createOrder], as the order-placement
    request carries it. *)
Record PaymentRequest : Type := mkPaymentRequest {
  method : string;
  paidAmount : Q
}.

(** The rule of [createOrderSchema] on [paymentInfo.paidAmount], which the
    route checks before the controller runs: [Joi.number().min(0)], reported
    with the message 'Paid amount must be at least 50% upfront'. *)
Definition validatePaidAmount (paymentInfo : PaymentRequest) : Res PaymentRequest :=
  if Qle_bool 0 (paidAmount paymentInfo)
  then Ok paymentInfo
  else Throw (AppError
                "Validation failed: Paid amount must be at least 50% upfront" 400).

(** [name || 'Unknown']. *)
Definition orUnknown (s : string) : string :=
  if String.eqb s "" then "Unknown" else s.

(** The callback of [cart.items.map] in [createOrder]; the product is the
    populated [item.productId], [None] when the reference dangles. *)
Definition itemFromCart (item : Cart.Item) : M Order.Item :=
  product <- Product_findById (Cart.productId item) ;;
  match product with
  | None => throw (AppError "Product not available: Unknown" 400)
  | Some product =>
      if negb (Product.isActive product)
      then throw (AppError ("Product not available: "
                            ++ orUnknown (Product.name product))%string 400)
      else if Product.stock product <? Cart.quantity item
      then throw (AppError ("Insufficient stock for " ++ Product.name product
                            ++ ". Available: " ++ showZ (Product.stock product)
                            ++ ", Requested: " ++ showZ (Cart.quantity item))%string
                           400)
      else ret (Order.mkItem (Product._id product) (Product.name product)
                             (Cart.quantity item) (Cart.priceAtAddition item))
  end.

Fixpoint mapItems (items : list Cart.Item) : M (list Order.Item) :=
  match items with
  | [] => ret []
  | item :: rest =>
      x <- itemFromCart item ;;
      xs <- mapItems rest ;;
      ret (x :: xs)
  end.

(** [products.reduce((sum, item) => sum + item.price * item.quantity, 0)]. *)
Definition totalAmount (products : list Order.Item) : Q :=
  fold_left (fun sum item => sum + Order.price item * inject_Z (Order.quantity item))%Q
            products 0%Q.

Definition initialPaymentAmount (products : list Order.Item) : Q :=
  (totalAmount products * (5 # 10))%Q.

(** The body of the stock loop that follows [Order.create]. *)
Definition updateStock (item : Order.Item) : M unit :=
  product <- Product_findById (Order.product item) ;;
  match product with
  | None => throw (TypeError "Cannot read properties of null (reading 'name')")
  | Some product =>
      if negb (Product.isActive product)
      then throw (AppError ("Product not available: "
                            ++ orUnknown (Product.name product))%string 400)
      else Product_findByIdAndUpdate_inc (Order.product item)
             (- Order.quantity item) (Order.quantity item)
  end.

(** The document handed to [Payment.create]. *)
Definition initialPayment (userId : ObjectId) (products : list Order.Item)
  : Payment.Doc :=
  Payment.mkDoc userId None (initialPaymentAmount products) "paid" "initial".

(** The document handed to [Order.create]. *)
Definition newOrder (now : Z) (userId : ObjectId) (products : list Order.Item)
  (shippingAddress : string) (payment : Payment.t) : Order.t :=
  Order.mk 0%N userId None products shippingAddress
    (Order.mkPaymentInfo (Payment._id payment) "card" "paid"
       (initialPaymentAmount products) (initialPaymentAmount products))
    (totalAmount products) (totalAmount products)
    (totalAmount products - initialPaymentAmount products)%Q
    "pending" true (Some (Payment._id payment)) None false None now.

Definition createOrder (now : Z) (userId : ObjectId) (products : list Order.Item)
  (cartId : option ObjectId) (shippingAddress : string)
  (paymentInfo : PaymentRequest) : M Order.t :=
  products <-
    match products, cartId with
    | [], Some cartId =>
        cart <- Cart_findById cartId ;;
        match cart with
        | None => throw (AppError "Cart is empty or not found" 404)
        | Some cart =>
            match Cart.items cart with
            | [] => throw (AppError "Cart is empty or not found" 404)
            | _ => mapItems (Cart.items cart)
            end
        end
    | _, _ => ret products
    end ;;
  match products with
  | [] => throw (AppError "No products provided" 400)
  | _ =>
      payment <- Payment_create (initialPayment userId products) ;;
      order <- Order_create now
                 (newOrder now userId products shippingAddress payment) ;;
      forOf updateStock products ;;;
      Payment_save (Payment.set_order payment (Order._id order)) ;;;
      match cartId with
      | Some cartId => Cart_findByIdAndDelete cartId
      | None => ret tt
      end ;;;
      ret order
  end.

(** [timeElapsed / (1000 * 60 * 60)]. *)
Definition hoursElapsed (now : Z) (order : Order.t) : Q :=
  (inject_Z (now - Order.createdAt order) / inject_Z (1000 * 60 * 60))%Q.

Definition refundAmount (order : Order.t) : Q :=
  (Order.amount (Order.paymentInfo order) * (98 # 100))%Q.

(** [cancelOrder(userId, orderId)].  The assignments to [order.cancelledAt]
    and [order.isCancelled] name no path of the order schema (its paths are
    [canceledAt] and [isCanceled]), so the save stores neither. *)
Definition cancelOrder (now : Z) (userId orderId : ObjectId) : M (string * Q) :=
  order <- Order_findOne orderId userId ;;
  match order with
  | None => throw (AppError "Order not found" 404)
  | Some order =>
      if String.eqb (Order.orderStatus order) "cancelled"
      then throw (AppError "Order already cancelled" 400)
      else if negb (Qle_bool (hoursElapsed now order) 24)
      then throw (AppError "Order cancellation period has expired" 403)
      else
        let order := Order.set_orderStatus order "cancelled" in
        Order_save now order ;;;
        Payment_create
          (Payment.mkDoc userId (Some orderId) (refundAmount order)
                         "refunded" "refund") ;;;
        ret ("Order cancelled and 98% refunded", refundAmount order)
  end.

Definition completePayment (now : Z) (userId orderId : ObjectId) : M (string * Q) :=
  order <- Order_findOne orderId userId ;;
  match order with
  | None => throw (AppError "Order not found" 404)
  | Some order =>
      if negb (String.eqb (Order.orderStatus order) "delivered")
      then throw (AppError "Order not delivered yet" 400)
      else if Qeq_bool (Order.paymentDue order) 0
      then throw (AppError "Already fully paid" 400)
      else
        let remaining := Order.paymentDue order in
        let order := Order.set_paymentDue order 0%Q in
        let order :=
          Order.set_paymentInfo order
            (Order.set_paidAmount (Order.paymentInfo order)
               (Order.paidAmount (Order.paymentInfo order) + remaining)%Q) in
        Order_save now order ;;;
        Payment_create
          (Payment.mkDoc userId (Some orderId) remaining "paid" "final") ;;;
        ret ("Final payment completed", remaining)
  end.

(** The output documents of [getMonthlySales]: [{ _id, total, count }]. *)
Definition MonthlyRow : Type := Aggregate.Group Z.

(** [{ $match: { paymentDue: 0 } }]. *)
Definition matches (o : Order.t) : bool := Qeq_bool (Order.paymentDue o) 0.

(** [{ $group: { _id: { $month: '$createdAt' }, ... } }]. *)
Definition keyOf (o : Order.t) : Z := utcMonth (Order.createdAt o).

Definition getMonthlySales : M (list MonthlyRow) :=
  fun db =>
    (Ok (Aggregate.sort Z.leb
           (Aggregate.group Z.eqb keyOf (filter matches (orders db)))),
     db).

(** The total reported for month [m]. *)
Definition monthTotal (m : Z) (rows : list MonthlyRow) : Q :=
  Aggregate.totalWhere (fun k => k =? m) rows.

(** The number of orders reported for month [m]. *)
Definition monthCount (m : Z) (rows : list MonthlyRow) : Z :=
  Aggregate.countWhere (fun k => k =? m) rows.

(** [.sort({ createdAt: -1 })]: newest first, equal dates in collection
    order. *)
Fixpoint insertNewestFirst (o : Order.t) (sorted : list Order.t) : list Order.t :=
  match sorted with
  | [] => [o]
  | h :: rest =>
      if Order.createdAt h <=? Order.createdAt o
      then o :: h :: rest
      else h :: insertNewestFirst o rest
  end.

Definition sortNewestFirst (l : list Order.t) : list Order.t :=
  fold_right insertNewestFirst [] l.

Definition getUserOrders (userId : ObjectId) : M (list Order.t) :=
  fun db =>
    (Ok (sortNewestFirst
           (filter (fun o => N.eqb (Order.user o) userId) (orders db))),
     db).

(** The callback of [orders.reduce] in [getAllOrders]. *)
Definition addSale (sum : Q) (order : Order.t) : Q :=
  if Qeq_bool (Order.paymentDue order) 0
  then (sum + Order.totalPrice order)%Q
  else sum.

Definition getAllOrders : M (list Order.t * Q) :=
  fun db =>
    let orders := sortNewestFirst (orders db) in
    (Ok (orders, fold_left addSale orders 0%Q), db).

(** [updateOrderStatus({ orderId, status })].  The save validates the new
    status against [orderStatuses]. *)
Definition updateOrderStatus (now : Z) (orderId : ObjectId) (status : string)
  : M Order.t :=
  order <- Order_findById orderId ;;
  match order with
  | None => throw (AppError "Order not found" 404)
  | Some order =>
      let order := Order.set_orderStatus order status in
      let order :=
        if String.eqb status "delivered"
        then Order.set_deliveredAt order now
        else order in
      if oneOf orderStatuses status
      then Order_save now order ;;; ret order
      else throw (ValidationError "Order"
                    [("orderStatus", enumMessage status "orderStatus")])
  end.

Definition deleteOrder (orderId : ObjectId) : M unit :=
  order <- Order_findById orderId ;;
  match order with
  | None => throw (AppError "Order not found" 404)
  | Some order => Order_deleteOne order
  end.

End OrderService.

(** ** [CartService] *)

Module CartService.

Definition getOrCreateCart (userId sessionId : option ObjectId) : M Cart.t :=
  match userId, sessionId with
  | Some userId, _ =>
      cart <- Cart_findOne userId ;;
      match cart with
      | Some cart => ret cart
      | None => Cart_create (Some userId) []
      end
  | None, Some sessionId =>
      cart <- Cart_findById sessionId ;;
      match cart with
      | Some cart => ret cart
      | None => Cart_create None []
      end
  | None, None => Cart_create None []
  end.

(** [cart.items.findIndex(item => item.productId.toString() === productId)],
    [None] for [-1]. *)
Fixpoint findIndex (productId : ObjectId) (items : list Cart.Item) : option nat :=
  match items with
  | [] => None
  | item :: rest =>
      if N.eqb (Cart.productId item) productId then Some O
      else option_map S (findIndex productId rest)
  end.

(** [items.splice(i, 1)]. *)
Fixpoint splice (i : nat) (items : list Cart.Item) : list Cart.Item :=
  match items, i with
  | [], _ => []
  | _ :: rest, O => rest
  | item :: rest, S i => item :: splice i rest
  end.

(** [items[i].quantity = q]. *)
Fixpoint setQuantityAt (i : nat) (q : Z) (items : list Cart.Item) : list Cart.Item :=
  match items, i with
  | [], _ => []
  | item :: rest, O => Cart.set_quantity item q :: rest
  | item :: rest, S i => item :: setQuantityAt i q rest
  end.

(** [getOrCreateCart] always yields a cart, so the [if (!cart)] test that
    follows it in the source never fires. *)
Definition updateCartItemQuantity (userId sessionId : option ObjectId)
  (productId : ObjectId) (quantity : Z) : M Cart.t :=
  if (quantity =? 0) || (quantity <? 0)
  then throw (AppError "Invalid quantity" 400)
  else
    cart <- getOrCreateCart userId sessionId ;;
    match findIndex productId (Cart.items cart) with
    | None => throw (AppError "Item not found in cart" 404)
    | Some itemIndex =>
        product <- Product_findById productId ;;
        match product with
        | None => throw (AppError "Product not found" 404)
        | Some product =>
            let newQuantity := Z.min quantity (Product.stock product) in
            let cart :=
              Cart.set_items cart
                (if newQuantity =? 0
                 then splice itemIndex (Cart.items cart)
                 else setQuantityAt itemIndex newQuantity (Cart.items cart)) in
            Cart_save cart ;;;
            ret cart
        end
    end.

(** The callback of [guestCart.items.forEach]: add to the first line of the
    user cart that names the product, or push the guest line. *)
Fixpoint mergeItem (userItems : list Cart.Item) (guestItem : Cart.Item)
  : list Cart.Item :=
  match userItems with
  | [] => [guestItem]
  | userItem :: rest =>
      if N.eqb (Cart.productId userItem) (Cart.productId guestItem)
      then Cart.set_quantity userItem
             (Cart.quantity userItem + Cart.quantity guestItem) :: rest
      else userItem :: mergeItem rest guestItem
  end.

Definition mergeItems (userItems guestItems : list Cart.Item) : list Cart.Item :=
  fold_left mergeItem guestItems userItems.

Definition mergeCarts (userId : ObjectId) (guestCartId : option ObjectId)
  : M (string * option Cart.t) :=
  match guestCartId with
  | None => ret ("No guest cart to merge", None)
  | Some guestCartId =>
      guestCart <- Cart_findById guestCartId ;;
      match guestCart with
      | None => ret ("Guest cart is empty", None)
      | Some guestCart =>
          match Cart.items guestCart with
          | [] => ret ("Guest cart is empty", None)
          | _ =>
              userCart <- Cart_findOne userId ;;
              userCart <-
                match userCart with
                | None => Cart_create (Some userId) (Cart.items guestCart)
                | Some userCart =>
                    let userCart :=
                      Cart.set_items userCart
                        (mergeItems (Cart.items userCart) (Cart.items guestCart)) in
                    Cart_save userCart ;;;
                    ret userCart
                end ;;
              Cart_findByIdAndDelete guestCartId ;;;
              ret ("Cart merged successfully", Some userCart)
          end
      end
  end.

(** [items[i].quantity += q]. *)
Fixpoint addQuantityAt (i : nat) (q : Z) (items : list Cart.Item) : list Cart.Item :=
  match items, i with
  | [], _ => []
  | item :: rest, O => Cart.set_quantity item (Cart.quantity item + q) :: rest
  | item :: rest, S i => item :: addQuantityAt i q rest
  end.

Definition addItemToCart (userId sessionId productId : option ObjectId)
  (quantity : Z) : M Cart.t :=
  match productId with
  | None => throw (AppError "Invalid product or quantity" 400)
  | Some productId =>
      if (quantity =? 0) || (quantity <=? 0)
      then throw (AppError "Invalid product or quantity" 400)
      else
        product <- Product_findById productId ;;
        match product with
        | None => throw (AppError "Product not found" 404)
        | Some product =>
            if Product.stock product <? quantity
            then throw (AppError "Insufficient stock available" 400)
            else
              cart <- getOrCreateCart userId sessionId ;;
              let cart :=
                Cart.set_items cart
                  (match findIndex productId (Cart.items cart) with
                   | Some existingItemIndex =>
                       addQuantityAt existingItemIndex quantity (Cart.items cart)
                   | None =>
                       Cart.items cart
                       ++ [Cart.mkItem productId (Product.name product) quantity
                                       (Product.price product)]
                   end) in
              Cart_save cart ;;;
              ret cart
        end
  end.

(** [item.priceAtAddition || product.price]. *)
Definition orPrice (priceAtAddition price : Q) : Q :=
  if Qeq_bool priceAtAddition 0 then price else priceAtAddition.

(** One entry of the [items] that [getCartWithDetails] returns. *)
Record DetailItem : Type := mkDetailItem {
  d_productId : ObjectId;
  d_name : string;
  d_price : Q;
  d_quantity : Z;
  d_stock : Z;
  d_subtotal : Q
}.

Record Details : Type := mkDetails {
  d_items : list DetailItem;
  d_total : Q;
  d_itemCount : Z
}.

(** The callback of [cart.items.map] in [getCartWithDetails], [None] for
    [null]. *)
Definition verifyItem (products : list Product.t) (item : Cart.Item)
  : option DetailItem :=
  match findProduct (Cart.productId item) products with
  | None => None
  | Some product =>
      let quantity := Z.min (Cart.quantity item) (Product.stock product) in
      let price := orPrice (Cart.priceAtAddition item) (Product.price product) in
      Some (mkDetailItem (Cart.productId item) (Product.name product) price
                         quantity (Product.stock product)
                         (inject_Z quantity * price)%Q)
  end.

(** [verifiedItems.filter(item => item !== null)]. *)
Fixpoint notNull {A} (l : list (option A)) : list A :=
  match l with
  | [] => []
  | Some x :: rest => x :: notNull rest
  | None :: rest => notNull rest
  end.

Definition getCartWithDetails (userId sessionId : option ObjectId) : M Details :=
  fun db =>
    let cart :=
      match userId, sessionId with
      | Some userId, _ => find (ownedBy userId) (carts db)
      | None, Some sessionId => findCart sessionId (carts db)
      | None, None => None
      end in
    match cart with
    | None => (Ok (mkDetails [] 0 0), db)
    | Some cart =>
        let verifiedItems := map (verifyItem (products db)) (Cart.items cart) in
        let total :=
          fold_left (fun total v => match v with
                                    | Some d => (total + d_subtotal d)%Q
                                    | None => total
                                    end)
                    verifiedItems 0%Q in
        let filteredItems := notNull verifiedItems in
        (Ok (mkDetails filteredItems total
               (fold_left (fun sum item => sum + d_quantity item) filteredItems 0)),
         db)
    end.


Definition clearCart (userId sessionId : option ObjectId) : M unit :=
  match userId, sessionId with
  | Some userId, _ => Cart_findOneAndUpdate_items userId []
  | None, Some sessionId => Cart_findByIdAndUpdate_items sessionId []
  | None, None => ret tt
  end.

(** The body of the loop of [getCartItemsForOrder], on the pair of its two
    accumulators [orderItems] and [total]. *)
Definition collectItem (products : list Product.t)
  (acc : list Order.Item * Q) (item : Cart.Item) : list Order.Item * Q :=
  match findProduct (Cart.productId item) products with
  | None => acc
  | Some product =>
      let quantity := Z.min (Cart.quantity item) (Product.stock product) in
      let price := orPrice (Cart.priceAtAddition item) (Product.price product) in
      (fst acc ++ [Order.mkItem (Product._id product) (Product.name product)
                                quantity price],
       (snd acc + price * inject_Z quantity)%Q)
  end.

Definition getCartItemsForOrder (userId sessionId : option ObjectId)
  : M (list Order.Item * Q) :=
  cart <- getOrCreateCart userId sessionId ;;
  match Cart.items cart with
  | [] => throw (AppError "Cart is empty" 400)
  | _ =>
      fun db =>
        match fold_left (collectItem (products db)) (Cart.items cart) ([], 0%Q) with
        | ([], _) => (Throw (AppError "No valid items found in cart" 400), db)
        | (orderItems, total) => (Ok (orderItems, total), db)
        end
  end.

End CartService.

(** ** [PaymentService] *)

Module PaymentService.

(** How [processRefund] ends: it returns, it throws an error of the
    application, or [order.save()] rejects the document with a
    [ValidationError] that names the modified paths violating the schema. *)
Inductive Outcome : Type :=
| Returned (message : string) (order : Order.t)
| Thrown (e : Error)
| ValidationError (paths : list string).

(** The validation that [order.save()] runs on the two paths that
    [processRefund] assigns. *)
Definition invalidPaths (order : Order.t) : list string :=
  (if oneOf orderStatuses (Order.orderStatus order) then [] else ["orderStatus"])
  ++ (if oneOf ["unpaid"; "partial"; "paid"; "refunded"]
               (Order.status (Order.paymentInfo order))
      then [] else ["paymentInfo.status"]).

(** [processRefund(orderId)]; the simulated delay has no effect on the
    data. *)
Definition processRefund (now : Z) (orderId : ObjectId) (db : DB) : Outcome * DB :=
  match Order_findById orderId db with
  | (Throw e, db) => (Thrown e, db)
  | (Ok None, db) => (Thrown (AppError "Order not found" 404), db)
  | (Ok (Some order), db) =>
      if negb (String.eqb (Order.status (Order.paymentInfo order)) "paid")
      then (Thrown (AppError "Only paid orders can be refunded" 400), db)
      else if String.eqb (Order.orderStatus order) "refunded"
      then (Thrown (AppError "Order already refunded" 400), db)
      else
        let order := Order.set_orderStatus order "refunded" in
        let order :=
          Order.set_paymentInfo order
            (Order.set_status (Order.paymentInfo order) "refunded") in
        match invalidPaths order with
        | [] =>
            match Order_save now order db with
            | (Throw e, db) => (Thrown e, db)
            | (Ok _, db) => (Returned "Refund processed successfully" order, db)
            end
        | paths => (ValidationError paths, db)
        end
  end.

End PaymentService.

(** ** [order.controller]: how service errors reach the error middleware *)

Module OrderController.

(** [error.message].  The text of a duplicate-key error names the collection
    after its database, which the connection string decides; the name of the
    database is left out. *)
Definition message (e : Error) : string :=
  match e with
  | AppError m _ => m
  | InventoryError productId requested available =>
      ("Not enough stock for product " ++ showId productId
       ++ ". Requested: " ++ showZ requested
       ++ ", Available: " ++ showZ available)%string
  | TypeError m => m
  | ValidationError model errors =>
      (model ++ " validation failed: "
       ++ String.concat ", "
            (map (fun e => (fst e ++ ": " ++ snd e)%string) errors))%string
  | MongoServerError code index =>
      ("E" ++ showZ code
       ++ " duplicate key error collection: payments index: " ++ index
       ++ " dup key: { paymentDetails.transactionId: null }")%string
  end.

(** [catch (error) { next(new AppError(error.message, error.statusCode || 500)) }]. *)
Definition forward {A} (m : M A) : M A :=
  fun db =>
    match m db with
    | (Throw e, db') =>
        (Throw (AppError (message e)
                  (match e with
                   | TypeError _ | ValidationError _ _ | MongoServerError _ _ => 500
                   | _ => if statusCode e =? 0 then 500 else statusCode e
                   end)),
         db')
    | r => r
    end.

(** [catch (error) { next(new AppError(error.message, 500)) }]. *)
Definition forward500 {A} (m : M A) : M A :=
  fun db =>
    match m db with
    | (Throw e, db') => (Throw (AppError (message e) 500), db')
    | r => r
    end.

(** [exports.cancelOrder], with [req.user.id] and [req.params.orderId]. *)
Definition cancelOrder (now : Z) (userId orderId : ObjectId) : M (string * Q) :=
  forward (OrderService.cancelOrder now userId orderId).

Definition completePayment (now : Z) (userId orderId : ObjectId) : M (string * Q) :=
  forward (OrderService.completePayment now userId orderId).

(** [exports.updateOrder], with [req.params.id] and [req.body.status]. *)
Definition updateOrder (now : Z) (orderId : ObjectId) (status : string) : M Order.t :=
  forward500 (OrderService.updateOrderStatus now orderId status).

Definition deleteOrder (orderId : ObjectId) : M unit :=
  forward500 (OrderService.deleteOrder orderId).

End OrderController.

(** ** [ProductService]: reviews *)

Module Review.
(** [reviewSchema]. *)
Record t : Type := mk {
  user : ObjectId;
  name : string;
  rating : Q;
  comment : string
}.

(** The constraints of [reviewSchema]: a name, a comment, a rating from 1 to
    5. *)
Definition valid (r : t) : bool :=
  negb (String.eqb (name r) "")
  && negb (String.eqb (comment r) "")
  && Qle_bool 1 (rating r)
  && Qle_bool (rating r) 5.
End Review.

Module ProductService.

(** The fields of a product document that the review functions read and
    write. *)
Record Doc : Type := mkDoc {
  _id : ObjectId;
  price : Q;
  reviews : list Review.t;
  numReviews : Z;
  rating : Q
}.

(** [reviews.reduce((acc, item) => item.rating + acc, 0) / reviews.length],
    the ratings taken as exact numbers: the program adds and divides
    doubles. *)
Definition average (reviews : list Review.t) : Q :=
  (fold_left (fun acc item => Review.rating item + acc) reviews 0
   / inject_Z (Z.of_nat (List.length reviews)))%Q.

(** [productSchema.pre('save')] on a document whose reviews were modified:
    the rating hook, then the price hook. *)
Definition preSave (this : Doc) : Res Doc :=
  let this :=
    mkDoc (_id this) (price this) (reviews this)
          (Z.of_nat (List.length (reviews this)))
          (if 0 <? Z.of_nat (List.length (reviews this))
           then average (reviews this) else 0) in
  if negb (Qle_bool 0 (price this))
  then Throw (AppError "Price cannot be less than 0" 400)
  else Ok this.

Definition createProductReview (productId userId : ObjectId) (userName : string)
  (rating : Q) (comment : string) (catalog : list Doc) : Res unit * list Doc :=
  match find (fun p => N.eqb (_id p) productId) catalog with
  | None => (Throw (AppError "Product not found" 404), catalog)
  | Some product =>
      match find (fun r => N.eqb (Review.user r) userId) (reviews product) with
      | Some alreadyReviewed =>
          (Throw (AppError "Product already reviewed" 400), catalog)
      | None =>
          let reviews := reviews product ++ [Review.mk userId userName rating comment] in
          let product :=
            mkDoc (_id product) (price product) reviews
                  (Z.of_nat (List.length reviews)) (average reviews) in
          match preSave product with
          | Throw e => (Throw e, catalog)
          | Ok product => (Ok tt, replaceById _id product catalog)
          end
      end
  end.

(** [getProductReviews]. *)
Definition getProductReviews (productId : ObjectId) (catalog : list Doc)
  : Res (list Review.t) :=
  match find (fun p => N.eqb (_id p) productId) catalog with
  | None => Throw (AppError "Product not found" 404)
  | Some product => Ok (reviews product)
  end.

End ProductService.

(** ** The example scenario of the specification

    Product stock 10, price 50.00; three units ordered; initial payment
    75.00. *)

Module Scenario.

Definition alice : ObjectId := 2%N.
Definition bob : ObjectId := 3%N.

Definition widget : Product.t := Product.mk 1%N "Widget" 50 10 0 true.
Definition line : Order.Item := Order.mkItem 1%N "Widget" 3 50.
Definition request : OrderService.PaymentRequest :=
  OrderService.mkPaymentRequest "card" 75.

(** 2023-11-14T22:13:20Z, one hour later, twenty-five hours later. *)
Definition t0 : Z := 1700000000000.
Definition t1 : Z := t0 + 3600000.
Definition t25 : Z := t0 + 25 * 3600000.

(** Before the order is placed. *)
Definition shop : DB := mkDB [widget] [] [] [] 10%N.

(** The order as the scenario describes it once placed: half paid, half
    due, three units reserved. *)
Definition placed : Order.t :=
  Order.mk 11%N alice (Some (t0, 1)) [line] "1 Main Street"
    (Order.mkPaymentInfo 10%N "card" "paid" 75 75)
    150 150 75 "processing" true (Some 10%N) None false None t0.

(** The deposit on that order, a payment recorded with its payment details
    (those of a card payment of 75.00). *)
Definition deposit : Payment.t :=
  Payment.mk 10%N 11%N alice "paid" (Some "mock_1700000000000").

Definition shopAfterOrder : DB :=
  mkDB [Product.set_counters widget 7 3] [] [placed] [deposit] 12%N.

(** The same order once delivered, the balance still due. *)
Definition shopAfterDelivery : DB :=
  mkDB [Product.set_counters widget 7 3] []
       [Order.set_orderStatus placed "delivered"] [deposit] 12%N.

(** Carts: Alice holds two widgets (three are in stock), a guest holds two
    widgets and a gadget, another guest holds a gadget, a third nothing. *)
Definition gadget : Product.t := Product.mk 4%N "Gadget" 20 5 0 true.
Definition scarceWidget : Product.t := Product.mk 1%N "Widget" 50 3 0 true.
Definition twoWidgets : Cart.Item := Cart.mkItem 1%N "Widget" 2 50.
Definition oneWidget : Cart.Item := Cart.mkItem 1%N "Widget" 1 50.
Definition oneGadget : Cart.Item := Cart.mkItem 4%N "Gadget" 1 20.

(** The order of the scenario with a second line that asks for nine gadgets
    when five are in stock. *)
Definition placedWithGadgets : Order.t :=
  Order.mk 11%N alice (Some (t0, 1)) [line; Order.mkItem 4%N "Gadget" 9 20]
    "1 Main Street" (Order.mkPaymentInfo 10%N "card" "paid" 165 165)
    330 330 165 "processing" true (Some 10%N) None false None t0.

Definition aliceCart : Cart.t := Cart.mk 5%N (Some alice) [twoWidgets].
Definition guestCart : Cart.t := Cart.mk 6%N None [twoWidgets; oneGadget].
Definition smallGuestCart : Cart.t := Cart.mk 7%N None [oneWidget; oneGadget].
Definition emptyGuestCart : Cart.t := Cart.mk 8%N None [].

Definition shopWithCarts : DB :=
  mkDB [scarceWidget; gadget]
       [aliceCart; guestCart; smallGuestCart; emptyGuestCart] [] [] 10%N.

(** Orders for the sales reports: one delivered with a balance due, one
    delivered and fully paid. *)
Definition deliveredUnpaid : Order.t := Order.set_orderStatus placed "delivered".
Definition deliveredPaid : Order.t :=
  Order.set__id (Order.set_paymentDue deliveredUnpaid 0) 13%N.

(** The delivered order beside a payment stored without payment details:
    the refund of another order, as [cancelOrder] records it. *)
Definition otherRefund : Payment.t := Payment.mk 9%N 8%N bob "refunded" None.
Definition shopAfterRefund : DB :=
  mkDB [Product.set_counters widget 7 3] [] [deliveredUnpaid]
       [deposit; otherRefund] 12%N.

Definition shopAllPaid : DB :=
  mkDB [Product.set_counters widget 7 3] [] [deliveredPaid] [deposit] 14%N.

(** A delivered, fully paid order of one year earlier (2022-11-14). *)
Definition lastYear : Order.t :=
  Order.mk 14%N alice (Some (t0 - 365 * 86400000, 1)) [line] "1 Main Street"
    (Order.mkPaymentInfo 9%N "card" "paid" 75 150)
    150 150 0 "delivered" true (Some 9%N) None false None (t0 - 365 * 86400000).

Definition ledgerUnpaid : DB := mkDB [] [] [deliveredUnpaid] [] 15%N.
Definition ledgerTwoYears : DB := mkDB [] [] [lastYear; deliveredPaid] [] 15%N.

(** The catalogue entry of the widget, reviewed once, by Bob. *)
Definition bobsReview : Review.t := Review.mk bob "Bob" 4 "Solid".
Definition reviewedWidget : ProductService.Doc :=
  ProductService.mkDoc 1%N 50 [bobsReview] 1 4.

(** Requests that offer nothing and the full price. *)
Definition nothingPaid : OrderService.PaymentRequest :=
  OrderService.mkPaymentRequest "card" 0.
Definition allPaid : OrderService.PaymentRequest :=
  OrderService.mkPaymentRequest "card" 150.

End Scenario.

(** ** Lemmas on collections *)

Lemma find_false {A} (f : A -> bool) (l : list A) :
  (forall x, In x l -> f x = false) -> find f l = None.
Proof.
  induction l as [|a l IH]; intros H; simpl; [reflexivity|].
  rewrite (H a (or_introl eq_refl)). apply IH.
  intros x Hx. apply H. right. exact Hx.
Qed.

Lemma findOwnedOrder_Some orderId userId l o :
  findOwnedOrder orderId userId l = Some o ->
  In o l /\ Order._id o = orderId /\ Order.user o = userId.
Proof.
  unfold findOwnedOrder. intros H.
  destruct (find_some _ _ H) as [Hin Hb].
  apply andb_true_iff in Hb. destruct Hb as [H1 H2].
  apply N.eqb_eq in H1. apply N.eqb_eq in H2. auto.
Qed.

Lemma findOwnedOrder_foreign orderId userId l :
  (forall o, In o l -> Order._id o = orderId -> Order.user o <> userId) ->
  findOwnedOrder orderId userId l = None.
Proof.
  intros H. apply find_false. intros o Hin.
  destruct (N.eqb_spec (Order._id o) orderId) as [E|E]; simpl; [|reflexivity].
  apply N.eqb_neq. apply (H o Hin E).
Qed.

Section ById.
Context {A : Type} (idOf : A -> ObjectId).

Lemma find_replaceById (x : A) (l : list A) :
  (exists y, In y l /\ idOf y = idOf x) ->
  find (fun y => N.eqb (idOf y) (idOf x)) (replaceById idOf x l) = Some x.
Proof.
  induction l as [|a l IH]; intros [y [Hin Hy]]; simpl in *; [contradiction|].
  destruct (N.eqb_spec (idOf a) (idOf x)) as [E|E].
  - rewrite N.eqb_refl. reflexivity.
  - apply N.eqb_neq in E. rewrite E.
    destruct Hin as [->|Hin].
    + apply N.eqb_neq in E. contradiction.
    + apply IH. exists y. auto.
Qed.


Lemma find_deleteById (i : ObjectId) (l : list A) :
  find (fun y => N.eqb (idOf y) i) (deleteById idOf i l) = None.
Proof.
  apply find_false. intros x Hx. unfold deleteById in Hx.
  apply filter_In in Hx. destruct Hx as [_ Hx].
  apply negb_true_iff in Hx. exact Hx.
Qed.

End ById.

(** The 24-hour test of [cancelOrder], in milliseconds. *)
Lemma hoursElapsed_gt_24 now order :
  Qle_bool (OrderService.hoursElapsed now order) 24 = false
  <-> 24 * 60 * 60 * 1000 < now - Order.createdAt order.
Proof.
  unfold OrderService.hoursElapsed.
  rewrite <- not_true_iff_false, Qle_bool_iff.
  unfold Qle, Qdiv, Qmult, Qinv, inject_Z. simpl.
  split; intros H; lia.
Qed.

(** ** Owner-scoped lookup: [cancelOrder] and [completePayment] *)

(** C9. A caller who does not own the order named by [orderId], whatever
    their role, gets "Order not found" (404) from both [cancelOrder] and
    [completePayment], and nothing is written; the outcome is the one of an
    order id that does not exist, neither function taking a role. *)
Theorem non_owner_gets_not_found now userId orderId db :
  (forall o, In o (orders db) -> Order._id o = orderId -> Order.user o <> userId) ->
  OrderService.cancelOrder now userId orderId db
    = (Throw (AppError "Order not found" 404), db)
  /\ OrderService.completePayment now userId orderId db
    = (Throw (AppError "Order not found" 404), db).
Proof.
  intros H. apply findOwnedOrder_foreign in H.
  unfold OrderService.cancelOrder, OrderService.completePayment,
    bind, Order_findOne.
  rewrite H. split; reflexivity.
Qed.

Lemma non_owner_gets_not_found_witness :
  OrderService.cancelOrder Scenario.t1 Scenario.bob 11%N Scenario.shopAfterOrder
    = (Throw (AppError "Order not found" 404), Scenario.shopAfterOrder)
  /\ OrderService.completePayment Scenario.t1 Scenario.bob 11%N Scenario.shopAfterOrder
    = (Throw (AppError "Order not found" 404), Scenario.shopAfterOrder).
Proof.
  apply (non_owner_gets_not_found Scenario.t1 Scenario.bob 11%N
           Scenario.shopAfterOrder).
  simpl. intros o [<-|[]] _. vm_compute. discriminate.
Defined.

(** ** The cancellation window *)

(** C8. For an order found for its owner, not cancelled, and created more
    than 24 hours before the call, [cancelOrder] throws "Order cancellation
    period has expired" (403) and the database (orders, products, payments,
    carts) is exactly what it was. *)
Theorem cancelOrder_after_window now userId orderId db order :
  findOwnedOrder orderId userId (orders db) = Some order ->
  Order.orderStatus order <> "cancelled" ->
  24 * 60 * 60 * 1000 < now - Order.createdAt order ->
  OrderService.cancelOrder now userId orderId db
    = (Throw (AppError "Order cancellation period has expired" 403), db).
Proof.
  intros Hfind Hstatus Hlate.
  unfold OrderService.cancelOrder, bind, Order_findOne. rewrite Hfind.
  apply String.eqb_neq in Hstatus. rewrite Hstatus.
  apply hoursElapsed_gt_24 in Hlate. rewrite Hlate. reflexivity.
Qed.

Lemma cancelOrder_after_window_witness :
  OrderService.cancelOrder Scenario.t25 Scenario.alice 11%N Scenario.shopAfterOrder
    = (Throw (AppError "Order cancellation period has expired" 403),
       Scenario.shopAfterOrder).
Proof.
  apply (cancelOrder_after_window Scenario.t25 Scenario.alice 11%N
           Scenario.shopAfterOrder Scenario.placed).
  - reflexivity.
  - vm_compute. discriminate.
  - vm_compute. reflexivity.
Defined.

(** ** Payments of the order service *)

Lemma findOrder_saved (order order' : Order.t) (l : list Order.t) :
  In order l -> Order._id order' = Order._id order ->
  findOrder (Order._id order) (replaceById Order._id order' l) = Some order'.
Proof.
  intros Hin Hid. unfold findOrder. rewrite <- Hid.
  apply find_replaceById. exists order. auto.
Qed.

(** The two guards of [completePayment], in the order the code tests them:
    an order that is not delivered is refused whatever is due on it, and a
    delivered order with nothing due is refused as paid.  Nothing is
    written. *)
Lemma completePayment_guards now userId orderId db order :
  findOwnedOrder orderId userId (orders db) = Some order ->
  (Order.orderStatus order <> "delivered" ->
   OrderService.completePayment now userId orderId db
     = (Throw (AppError "Order not delivered yet" 400), db))
  /\ (Order.orderStatus order = "delivered" ->
      (Order.paymentDue order == 0)%Q ->
      OrderService.completePayment now userId orderId db
        = (Throw (AppError "Already fully paid" 400), db)).
Proof.
  intros Hfind. split.
  - intros Hstatus.
    unfold OrderService.completePayment, bind, Order_findOne. rewrite Hfind.
    apply String.eqb_neq in Hstatus. rewrite Hstatus. reflexivity.
  - intros Hstatus Hdue.
    unfold OrderService.completePayment, bind, Order_findOne.
    rewrite Hfind, Hstatus. apply Qeq_bool_iff in Hdue. rewrite Hdue. reflexivity.
Qed.

(** What [completePayment] does once both of its guards are passed, on any
    database.  The order is saved with nothing due, and the pre-save hook of
    the new payment sets its status to "processing"; then the payment is
    inserted, unless a payment without payment details is stored already, in
    which case the insert fails on the unique index and the order stays
    written. *)
Lemma completePayment_run now userId orderId db order :
  findOwnedOrder orderId userId (orders db) = Some order ->
  Order.orderStatus order = "delivered" ->
  Qeq_bool (Order.paymentDue order) 0 = false ->
  let order1 :=
    Order.set_paymentInfo (Order.set_paymentDue order 0%Q)
      (Order.set_paidAmount (Order.paymentInfo order)
         (Order.paidAmount (Order.paymentInfo order) + Order.paymentDue order)%Q) in
  let sync := Order.apply (Order.mkUpdate (Some "paid") (Some "processing")) in
  let db1 :=
    set_orders db
      (map (fun o => if N.eqb (Order._id o) orderId then sync o else o)
           (replaceById Order._id order1 (orders db))) in
  OrderService.completePayment now userId orderId db
  = if existsb bare (payments db)
    then (Throw (MongoServerError 11000 "paymentDetails.transactionId_1"), db1)
    else (Ok ("Final payment completed", Order.paymentDue order),
          bump (set_payments db1
                  (payments db
                   ++ [Payment.mk (nextId db) orderId userId "paid" None]))).
Proof.
  intros Hfind Hstatus Hdue order1 sync db1.
  destruct (findOwnedOrder_Some _ _ _ _ Hfind) as [Hin [Hid _]].
  unfold OrderService.completePayment, bind at 1, Order_findOne.
  rewrite Hfind, Hstatus, Hdue. cbn [String.eqb negb].
  assert (Hsaved : findOrder orderId
                     (replaceById Order._id order1 (orders db)) = Some order1).
  { rewrite <- Hid. apply findOrder_saved; [exact Hin | reflexivity]. }
  unfold Order_save, Payment_create, Payment_preSave, Order_findByIdAndUpdate,
    Order_preFindOneAndUpdate, Order_findOneById, Order_preSave_orderNumber,
    Order_preSave_reduceStock, bind, ret.
  cbn -[replaceById findOrder existsb bare].
  fold order1. rewrite Hsaved. cbn -[replaceById findOrder existsb bare].
  destruct (existsb bare (payments db)); reflexivity.
Qed.

(** C4, on the example scenario once the order is delivered, 75.00 still due.
    With the deposit stored beside its payment details, [completePayment]
    succeeds and returns 75.00, but the payment record it stores holds the
    order, the user and the status only: no amount.  The order is left with
    nothing due and with status "processing", so a further call is refused as
    "Order not delivered yet", not as already paid, although nothing is due.
    With a payment without payment details already stored, the call throws a
    duplicate-key error and stores no payment, yet the order has been written
    with nothing due. *)
Theorem completePayment_scenario :
  (exists db',
     OrderService.completePayment Scenario.t1 Scenario.alice 11%N
       Scenario.shopAfterDelivery
       = (Ok ("Final payment completed", 75%Q), db')
     /\ payments db'
        = [Scenario.deposit; Payment.mk 12%N 11%N Scenario.alice "paid" None]
     /\ map Order.paymentDue (orders db') = [0%Q]
     /\ map Order.orderStatus (orders db') = ["processing"]
     /\ OrderService.completePayment Scenario.t1 Scenario.alice 11%N db'
        = (Throw (AppError "Order not delivered yet" 400), db'))
  /\ (exists db',
        OrderService.completePayment Scenario.t1 Scenario.alice 11%N
          Scenario.shopAfterRefund
          = (Throw (MongoServerError 11000 "paymentDetails.transactionId_1"), db')
        /\ payments db' = [Scenario.deposit; Scenario.otherRefund]
        /\ map Order.paymentDue (orders db') = [0%Q]
        /\ map Order.orderStatus (orders db') = ["processing"]).
Proof.
  split.
  - eexists. split; [vm_compute; reflexivity|]. repeat split.
  - eexists. split; [vm_compute; reflexivity|]. repeat split.
Qed.

(** ** Cancellation within the window *)

(** The guard of [cancelOrder]: an order already marked cancelled is
    refused, and nothing is written. *)
Lemma cancelOrder_already_cancelled now userId orderId db order :
  findOwnedOrder orderId userId (orders db) = Some order ->
  Order.orderStatus order = "cancelled" ->
  OrderService.cancelOrder now userId orderId db
    = (Throw (AppError "Order already cancelled" 400), db).
Proof.
  intros Hfind Hstatus.
  unfold OrderService.cancelOrder, bind, Order_findOne.
  rewrite Hfind, Hstatus. reflexivity.
Qed.

Lemma within_window now order :
  now - Order.createdAt order <= 24 * 60 * 60 * 1000 ->
  Qle_bool (OrderService.hoursElapsed now order) 24 = true.
Proof.
  intros Hearly.
  destruct (Qle_bool (OrderService.hoursElapsed now order) 24) eqn:Hwin;
    [reflexivity | apply hoursElapsed_gt_24 in Hwin; lia].
Qed.

(** What [cancelOrder] does inside the window, on any database.  The order is
    saved as "cancelled", and the pre-save hook of the refund payment writes
    "refunded" over it; no product is touched.  Then the refund payment is
    inserted, unless a payment without payment details is stored already, in
    which case the insert fails on the unique index and the order stays
    written. *)
Lemma cancelOrder_run now userId orderId db order :
  findOwnedOrder orderId userId (orders db) = Some order ->
  Order.orderStatus order <> "cancelled" ->
  now - Order.createdAt order <= 24 * 60 * 60 * 1000 ->
  let order1 := Order.set_orderStatus order "cancelled" in
  let sync := Order.apply (Order.mkUpdate (Some "refunded") (Some "refunded")) in
  let db1 :=
    set_orders db
      (map (fun o => if N.eqb (Order._id o) orderId then sync o else o)
           (replaceById Order._id order1 (orders db))) in
  OrderService.cancelOrder now userId orderId db
  = if existsb bare (payments db)
    then (Throw (MongoServerError 11000 "paymentDetails.transactionId_1"), db1)
    else (Ok ("Order cancelled and 98% refunded", OrderService.refundAmount order),
          bump (set_payments db1
                  (payments db
                   ++ [Payment.mk (nextId db) orderId userId "refunded" None]))).
Proof.
  intros Hfind Hstatus Hearly order1 sync db1.
  destruct (findOwnedOrder_Some _ _ _ _ Hfind) as [Hin [Hid _]].
  unfold OrderService.cancelOrder, bind at 1, Order_findOne. rewrite Hfind.
  apply String.eqb_neq in Hstatus. rewrite Hstatus.
  rewrite (within_window now order Hearly). cbn [negb].
  assert (Hsaved : findOrder orderId
                     (replaceById Order._id order1 (orders db)) = Some order1).
  { rewrite <- Hid. apply findOrder_saved; [exact Hin | reflexivity]. }
  unfold Order_save, Payment_create, Payment_preSave, Order_findByIdAndUpdate,
    Order_preFindOneAndUpdate, Order_findOneById, Order_preSave_orderNumber,
    Order_preSave_reduceStock, bind, ret.
  cbn -[replaceById findOrder existsb bare OrderService.refundAmount].
  fold order1. rewrite Hsaved.
  cbn -[replaceById findOrder existsb bare OrderService.refundAmount].
  destruct (existsb bare (payments db)); reflexivity.
Qed.

(** C2, on the example scenario (stock 7 and sold 3 after the order, a
    deposit of 75.00), cancelled one hour after creation: the call succeeds
    and returns a refund of 73.50; but the product keeps stock 7 and sold 3
    instead of returning to 10 and 0, the stored order ends with status
    "refunded", written by the payment's pre-save hook over the "cancelled"
    that [cancelOrder] had saved, and the refund payment that is stored holds
    the order, the user and the status only: no amount. *)
Theorem cancelOrder_scenario :
  exists refund db',
    OrderService.cancelOrder Scenario.t1 Scenario.alice 11%N Scenario.shopAfterOrder
      = (Ok ("Order cancelled and 98% refunded", refund), db')
    /\ (refund == 73.5)%Q
    /\ map Product.stock (products db') = [7]
    /\ map Product.sold (products db') = [3]
    /\ map Order.orderStatus (orders db') = ["refunded"]
    /\ payments db'
       = [Scenario.deposit; Payment.mk 12%N 11%N Scenario.alice "refunded" None].
Proof.
  eexists. eexists. split; [vm_compute; reflexivity|].
  repeat split; reflexivity.
Qed.

(** Every call of [cancelOrder] leaves the payments as they were or appends
    one refund payment without payment details, and appends none when such
    a payment is stored already. *)
Lemma cancelOrder_payments now userId orderId db :
  payments (snd (OrderService.cancelOrder now userId orderId db)) = payments db
  \/ (existsb bare (payments db) = false
      /\ exists p,
           bare p = true /\ Payment.status p = "refunded"
           /\ payments (snd (OrderService.cancelOrder now userId orderId db))
              = payments db ++ [p]).
Proof.
  destruct (findOwnedOrder orderId userId (orders db)) as [order|] eqn:Hfind.
  - destruct (String.eqb_spec (Order.orderStatus order) "cancelled") as [Hc|Hc].
    + rewrite (cancelOrder_already_cancelled _ _ _ _ _ Hfind Hc). left. reflexivity.
    + destruct (Z_le_gt_dec (now - Order.createdAt order) (24 * 60 * 60 * 1000))
        as [Hearly|Hlate].
      * rewrite (cancelOrder_run _ _ _ _ _ Hfind Hc Hearly). cbv zeta.
        destruct (existsb bare (payments db)) eqn:Hbare.
        -- left. reflexivity.
        -- right. split; [reflexivity|].
           exists (Payment.mk (nextId db) orderId userId "refunded" None).
           repeat split.
      * left. unfold OrderService.cancelOrder, bind, Order_findOne. rewrite Hfind.
        apply String.eqb_neq in Hc. rewrite Hc.
        assert (Hwin : Qle_bool (OrderService.hoursElapsed now order) 24 = false)
          by (apply hoursElapsed_gt_24; lia).
        rewrite Hwin. reflexivity.
  - left. unfold OrderService.cancelOrder, bind, Order_findOne. rewrite Hfind.
    reflexivity.
Qed.

Lemma existsb_bare_app l p :
  bare p = true -> existsb bare (l ++ [p]) = true.
Proof.
  intros Hp. rewrite existsb_app. simpl. rewrite Hp. apply orb_true_iff.
  right. reflexivity.
Qed.

(** C10. An order whose status is "cancelled" is refused by [cancelOrder]
    before anything is written.  And whatever calls of [cancelOrder] are made
    one after the other, by any callers, on any orders and at any times, they
    append at most one payment in all, a refund: the refund payment carries
    no payment details, and the unique index admits one such payment. *)
Theorem cancelOrder_refunds_at_most_once :
  (forall now userId orderId db order,
     findOwnedOrder orderId userId (orders db) = Some order ->
     Order.orderStatus order = "cancelled" ->
     OrderService.cancelOrder now userId orderId db
     = (Throw (AppError "Order already cancelled" 400), db))
  /\ (forall (calls : list (Z * ObjectId * ObjectId)) db,
        exists added,
          payments
            (fold_left
               (fun db call =>
                  snd (OrderService.cancelOrder (fst (fst call)) (snd (fst call))
                         (snd call) db))
               calls db)
          = payments db ++ added
          /\ (List.length added <= 1)%nat
          /\ Forall (fun p => Payment.status p = "refunded") added
          /\ (existsb bare (payments db) = true -> added = [])).
Proof.
  split; [exact cancelOrder_already_cancelled|].
  induction calls as [|[[now userId] orderId] rest IH]; intros db.
  - exists []. cbn [fold_left]. rewrite app_nil_r. repeat split; auto.
  - cbn [fold_left fst snd].
    destruct (IH (snd (OrderService.cancelOrder now userId orderId db)))
      as [added [Hrun [Hlen [Hall Hnone]]]].
    destruct (cancelOrder_payments now userId orderId db)
      as [Hsame | [Hfree [p [Hp [Hstatus Happ]]]]].
    + exists added. rewrite Hrun, Hsame. repeat split; auto.
      intros Hbare. apply Hnone. rewrite Hsame. exact Hbare.
    + exists [p]. rewrite Hrun, Happ in *.
      rewrite (Hnone (existsb_bare_app _ _ Hp)). rewrite app_nil_r.
      repeat split; auto.
      intros Hbare. rewrite Hbare in Hfree. discriminate.
Qed.

(** ** Order creation *)

Lemma mapItems_reads items db : snd (OrderService.mapItems items db) = db.
Proof.
  revert db. induction items as [|item rest IH]; intros db; [reflexivity|].
  cbn [OrderService.mapItems]. unfold bind at 1.
  unfold OrderService.itemFromCart, bind at 1, Product_findById.
  destruct (findProduct _ _) as [product|]; [|reflexivity].
  destruct (negb (Product.isActive product)); [reflexivity|].
  destruct (Product.stock product <? Cart.quantity item); [reflexivity|].
  unfold ret at 1, bind. specialize (IH db).
  destruct (OrderService.mapItems rest db) as [[xs|e] db']; simpl in *; congruence.
Qed.

(** The initial payment is created before the order and without an order
    reference, which the payment schema requires: the validation rejects it,
    before any hook runs and before anything is written. *)
Lemma initial_payment_rejected userId products db :
  Payment_create (OrderService.initialPayment userId products) db
    = (Throw (ValidationError "Payment"
                [("order", "Payment must belong to an order")]), db).
Proof. reflexivity. Qed.

(** No call of [createOrder] gets past the initial payment: it throws, and
    the database is left as it was. *)
Lemma createOrder_throws now userId products cartId shippingAddress paymentInfo db :
  exists e,
    OrderService.createOrder now userId products cartId shippingAddress paymentInfo db
      = (Throw e, db).
Proof.
  assert (Hpay : forall ps, Payment_create (OrderService.initialPayment userId ps) db
                            = (Throw (ValidationError "Payment"
                                        [("order", "Payment must belong to an order")]),
                               db))
    by (intros; apply initial_payment_rejected).
  unfold OrderService.createOrder. unfold bind at 1.
  destruct products as [|p ps].
  - destruct cartId as [cartId|].
    + unfold bind at 1, Cart_findById.
      destruct (findCart cartId (carts db)) as [cart|]; [|eexists; reflexivity].
      destruct (Cart.items cart) as [|i is_] eqn:E; [eexists; reflexivity|].
      pose proof (mapItems_reads (i :: is_) db) as Hread.
      destruct (OrderService.mapItems (i :: is_) db) as [[xs|e] db'];
        simpl in Hread; subst db'; [|eexists; reflexivity].
      destruct xs; [eexists; reflexivity|].
      unfold bind at 1. rewrite Hpay. eexists; reflexivity.
    + eexists; reflexivity.
  - unfold ret at 1. unfold bind at 1. rewrite Hpay. eexists; reflexivity.
Qed.

(** C1, on the example scenario (stock 10, three units ordered).  The order
    is not created: [createOrder] throws the validation error of the initial
    payment, and the database is what it was, no order, stock 10 and sold 0
    where the scenario expects stock 7 and sold 3.  This is the outcome of
    every call that names a product: none creates an order, and none leaves
    a reservation behind. *)
Theorem createOrder_scenario :
  OrderService.createOrder Scenario.t0 Scenario.alice [Scenario.line] None
    "1 Main Street" Scenario.request Scenario.shop
    = (Throw (ValidationError "Payment"
                [("order", "Payment must belong to an order")]), Scenario.shop)
  /\ orders Scenario.shop = []
  /\ map Product.stock (products Scenario.shop) = [10]
  /\ map Product.sold (products Scenario.shop) = [0]
  /\ forall now userId line lines cartId shippingAddress paymentInfo db,
       OrderService.createOrder now userId (line :: lines) cartId shippingAddress
         paymentInfo db
       = (Throw (ValidationError "Payment"
                   [("order", "Payment must belong to an order")]), db).
Proof.
  split; [reflexivity|]. split; [reflexivity|]. split; [reflexivity|].
  split; [reflexivity|].
  intros now userId line lines cartId shippingAddress paymentInfo db.
  unfold OrderService.createOrder. unfold ret at 1. unfold bind at 1.
  unfold bind at 1. rewrite initial_payment_rejected. reflexivity.
Qed.

(** C3, on the example scenario.  A request that offers 0.00 against a total
    of 150.00 passes the rule the route applies to the amount paid, whose
    bound is 0 although its message speaks of 50%.  [createOrder] then fails
    with the validation error of the initial payment and not for the amount:
    the request that offers the full 150.00 fails in the very same way, and
    for any two values of the payment information the outcome of
    [createOrder] is the same. *)
Theorem createOrder_amount_not_checked :
  (OrderService.paidAmount Scenario.nothingPaid
     < OrderService.totalAmount [Scenario.line] * (1 # 2))%Q
  /\ OrderService.validatePaidAmount Scenario.nothingPaid = Ok Scenario.nothingPaid
  /\ OrderService.createOrder Scenario.t0 Scenario.alice [Scenario.line] None
       "1 Main Street" Scenario.nothingPaid Scenario.shop
     = (Throw (ValidationError "Payment"
                 [("order", "Payment must belong to an order")]), Scenario.shop)
  /\ OrderService.createOrder Scenario.t0 Scenario.alice [Scenario.line] None
       "1 Main Street" Scenario.allPaid Scenario.shop
     = (Throw (ValidationError "Payment"
                 [("order", "Payment must belong to an order")]), Scenario.shop)
  /\ forall now userId products cartId shippingAddress paymentInfo paymentInfo' db,
       OrderService.createOrder now userId products cartId shippingAddress
         paymentInfo db
       = OrderService.createOrder now userId products cartId shippingAddress
           paymentInfo' db.
Proof. repeat split. Qed.

(** ** Monthly sales *)

Section AggregateFacts.
Context {K : Type} (eqb leb : K -> K -> bool) (keyOf : Order.t -> K) (P : K -> bool).
Hypothesis eqb_eq : forall a b, eqb a b = true -> a = b.

Lemma totalWhere_accumulate k v acc :
  (Aggregate.totalWhere P (Aggregate.accumulate eqb k v acc)
   == Aggregate.totalWhere P acc + (if P k then v else 0))%Q.
Proof.
  induction acc as [|g rest IH]; simpl.
  - destruct (P k); ring.
  - destruct (eqb (Aggregate.key g) k) eqn:E; simpl.
    + apply eqb_eq in E. subst k. destruct (P (Aggregate.key g)); ring.
    + destruct (P (Aggregate.key g)); rewrite IH; ring.
Qed.

Lemma totalWhere_fold docs acc :
  (Aggregate.totalWhere P
     (fold_left (fun acc o => Aggregate.accumulate eqb (keyOf o)
                                (Order.totalPrice o) acc) docs acc)
   == Aggregate.totalWhere P acc + Aggregate.docTotal keyOf P docs)%Q.
Proof.
  revert acc. induction docs as [|o docs IH]; intros acc; simpl.
  - ring.
  - rewrite IH, totalWhere_accumulate. destruct (P (keyOf o)); ring.
Qed.

Lemma totalWhere_insert g gs :
  (Aggregate.totalWhere P (Aggregate.insert leb g gs)
   == Aggregate.totalWhere P (g :: gs))%Q.
Proof.
  induction gs as [|h rest IH]; simpl; [reflexivity|].
  destruct (leb (Aggregate.key g) (Aggregate.key h)); simpl; [reflexivity|].
  simpl in IH.
  destruct (P (Aggregate.key h)), (P (Aggregate.key g)); rewrite IH; ring.
Qed.

Lemma totalWhere_sort gs :
  (Aggregate.totalWhere P (Aggregate.sort leb gs) == Aggregate.totalWhere P gs)%Q.
Proof.
  induction gs as [|g rest IH]; simpl; [reflexivity|].
  rewrite totalWhere_insert. simpl. destruct (P (Aggregate.key g)); rewrite IH; reflexivity.
Qed.

(** Grouping then sorting neither loses nor invents sales. *)
Lemma totalWhere_pipeline docs :
  (Aggregate.totalWhere P (Aggregate.sort leb (Aggregate.group eqb keyOf docs))
   == Aggregate.docTotal keyOf P docs)%Q.
Proof.
  rewrite totalWhere_sort. unfold Aggregate.group.
  rewrite totalWhere_fold. simpl. ring.
Qed.

Lemma countWhere_accumulate k v acc :
  Aggregate.countWhere P (Aggregate.accumulate eqb k v acc)
  = Aggregate.countWhere P acc + (if P k then 1 else 0).
Proof.
  induction acc as [|g rest IH]; simpl.
  - destruct (P k); lia.
  - destruct (eqb (Aggregate.key g) k) eqn:E; simpl.
    + apply eqb_eq in E. subst k. destruct (P (Aggregate.key g)); lia.
    + destruct (P (Aggregate.key g)); rewrite IH; lia.
Qed.

Lemma countWhere_fold docs acc :
  Aggregate.countWhere P
    (fold_left (fun acc o => Aggregate.accumulate eqb (keyOf o)
                               (Order.totalPrice o) acc) docs acc)
  = Aggregate.countWhere P acc + Aggregate.docCount keyOf P docs.
Proof.
  unfold Aggregate.docCount.
  revert acc. induction docs as [|o docs IH]; intros acc; cbn [fold_left fold_right].
  - lia.
  - rewrite IH, countWhere_accumulate. destruct (P (keyOf o)); lia.
Qed.

Lemma countWhere_insert g gs :
  Aggregate.countWhere P (Aggregate.insert leb g gs)
  = Aggregate.countWhere P (g :: gs).
Proof.
  induction gs as [|h rest IH]; simpl; [reflexivity|].
  destruct (leb (Aggregate.key g) (Aggregate.key h)); simpl; [reflexivity|].
  simpl in IH.
  destruct (P (Aggregate.key h)), (P (Aggregate.key g)); rewrite IH; cbv iota; lia.
Qed.

Lemma countWhere_sort gs :
  Aggregate.countWhere P (Aggregate.sort leb gs) = Aggregate.countWhere P gs.
Proof.
  induction gs as [|g rest IH]; simpl; [reflexivity|].
  rewrite countWhere_insert. simpl. rewrite IH. reflexivity.
Qed.

(** Grouping then sorting neither loses nor invents orders. *)
Lemma countWhere_pipeline docs :
  Aggregate.countWhere P (Aggregate.sort leb (Aggregate.group eqb keyOf docs))
  = Aggregate.docCount keyOf P docs.
Proof.
  rewrite countWhere_sort. unfold Aggregate.group.
  rewrite countWhere_fold. simpl. lia.
Qed.

End AggregateFacts.

Lemma monthCount_project m gs :
  OrderStatics.monthCount m (map OrderStatics.project gs)
  = Aggregate.countWhere (fun k => snd k =? m) gs.
Proof.
  induction gs as [|g rest IH]; simpl; [reflexivity|].
  rewrite IH. reflexivity.
Qed.

(** Two filters keep the same documents of a list only if they agree on each
    of its documents. *)
Lemma filter_eq_agree {A} (f g : A -> bool) (l : list A) :
  filter f l = filter g l -> forall x, In x l -> f x = g x.
Proof.
  induction l as [|a l IH]; intros Heq x Hx; [contradiction|].
  simpl in Heq.
  destruct (f a) eqn:Ef, (g a) eqn:Eg.
  - injection Heq as Heq. destruct Hx as [<-|Hx]; [congruence | auto].
  - assert (Hin : In a (filter g l)) by (rewrite <- Heq; left; reflexivity).
    apply filter_In in Hin. destruct Hin as [_ Hga]. congruence.
  - assert (Hin : In a (filter f l)) by (rewrite Heq; left; reflexivity).
    apply filter_In in Hin. destruct Hin as [_ Hfa]. congruence.
  - destruct Hx as [<-|Hx]; [congruence | auto].
Qed.

Lemma key_eqb_eq a b : OrderStatics.key_eqb a b = true -> a = b.
Proof.
  destruct a as [y m], b as [y' m']. unfold OrderStatics.key_eqb. simpl.
  intros H. apply andb_true_iff in H. destruct H as [H1 H2].
  apply Z.eqb_eq in H1. apply Z.eqb_eq in H2. congruence.
Qed.

Lemma monthTotal_project m gs :
  OrderStatics.monthTotal m (map OrderStatics.project gs)
  = Aggregate.totalWhere (fun k => snd k =? m) gs.
Proof.
  induction gs as [|g rest IH]; simpl; [reflexivity|].
  rewrite IH. reflexivity.
Qed.

Lemma docTotal_month m docs :
  Aggregate.docTotal OrderStatics.keyOf (fun k => snd k =? m) docs
  = Aggregate.docTotal OrderService.keyOf (fun k => k =? m) docs.
Proof. reflexivity. Qed.

(** C5, refuted.  With one delivered order on which 75.00 is still due, the
    model static selects it and reports 150.00 for November 2023, while the
    service method selects nothing.  With two delivered, fully paid orders
    placed in November 2022 and November 2023, both select the same orders
    but the static returns one row per year and the service a single row for
    month 11. *)
Lemma monthly_sales_disagree :
  (filter OrderStatics.matches (orders Scenario.ledgerUnpaid)
     = [Scenario.deliveredUnpaid]
   /\ filter OrderService.matches (orders Scenario.ledgerUnpaid) = []
   /\ fst (OrderStatics.getMonthlySales Scenario.ledgerUnpaid)
      = Ok [OrderStatics.mkRow 2023 11 150 1]
   /\ fst (OrderService.getMonthlySales Scenario.ledgerUnpaid) = Ok [])
  /\ (filter OrderStatics.matches (orders Scenario.ledgerTwoYears)
        = filter OrderService.matches (orders Scenario.ledgerTwoYears)
      /\ fst (OrderStatics.getMonthlySales Scenario.ledgerTwoYears)
         = Ok [OrderStatics.mkRow 2022 11 150 1;
               OrderStatics.mkRow 2023 11 150 1]
      /\ fst (OrderService.getMonthlySales Scenario.ledgerTwoYears)
         = Ok [Aggregate.mkGroup 11 300 2]).
Proof. repeat split. Qed.

(** C5, amended.  The two reports select the same orders exactly on the
    collections where an order is delivered if and only if nothing is due on
    it.  On such a collection, for every month, the number of orders the
    service method reports equals the sum, over the years, of the numbers the
    model static reports, and so does the total, the amounts being taken as
    exact numbers. *)
Theorem monthly_sales_agree_per_month db :
  ((forall o, In o (orders db) ->
      Order.orderStatus o = "delivered" <-> (Order.paymentDue o == 0)%Q)
   <-> filter OrderStatics.matches (orders db)
       = filter OrderService.matches (orders db))
  /\ ((forall o, In o (orders db) ->
         Order.orderStatus o = "delivered" <-> (Order.paymentDue o == 0)%Q) ->
      exists yearly monthly,
        OrderStatics.getMonthlySales db = (Ok yearly, db)
        /\ OrderService.getMonthlySales db = (Ok monthly, db)
        /\ forall m,
             OrderService.monthCount m monthly = OrderStatics.monthCount m yearly
             /\ (OrderService.monthTotal m monthly
                 == OrderStatics.monthTotal m yearly)%Q).
Proof.
  assert (Hsel : (forall o, In o (orders db) ->
                    Order.orderStatus o = "delivered"
                    <-> (Order.paymentDue o == 0)%Q) ->
                 filter OrderStatics.matches (orders db)
                 = filter OrderService.matches (orders db)).
  { intros H. apply filter_ext_in. intros o Hin. specialize (H o Hin).
    unfold OrderStatics.matches, OrderService.matches.
    destruct (String.eqb_spec (Order.orderStatus o) "delivered") as [E|E].
    - symmetry. apply Qeq_bool_iff. apply H. exact E.
    - destruct (Qeq_bool (Order.paymentDue o) 0) eqn:E'; [|reflexivity].
      apply Qeq_bool_iff in E'. apply H in E'. contradiction. }
  split; [split; [exact Hsel|]|].
  - intros Heq o Hin.
    pose proof (filter_eq_agree _ _ _ Heq o Hin) as Hagree.
    unfold OrderStatics.matches, OrderService.matches in Hagree.
    rewrite <- Qeq_bool_iff, <- Hagree. symmetry. apply String.eqb_eq.
  - intros H. specialize (Hsel H).
    do 2 eexists. split; [reflexivity|]. split; [reflexivity|].
    intros m. split.
    + unfold OrderService.monthCount. rewrite monthCount_project.
      rewrite (countWhere_pipeline Z.eqb Z.leb OrderService.keyOf (fun k => k =? m))
        by (intros a b E; apply Z.eqb_eq; exact E).
      rewrite (countWhere_pipeline OrderStatics.key_eqb OrderStatics.key_leb
                 OrderStatics.keyOf (fun k => snd k =? m) key_eqb_eq).
      rewrite Hsel. reflexivity.
    + unfold OrderService.monthTotal.
      rewrite monthTotal_project.
      rewrite (totalWhere_pipeline Z.eqb Z.leb OrderService.keyOf (fun k => k =? m))
        by (intros a b E; apply Z.eqb_eq; exact E).
      rewrite (totalWhere_pipeline OrderStatics.key_eqb OrderStatics.key_leb
                 OrderStatics.keyOf (fun k => snd k =? m) key_eqb_eq).
      rewrite Hsel, docTotal_month. reflexivity.
Qed.

Lemma monthly_sales_agree_per_month_witness :
  filter OrderStatics.matches (orders Scenario.ledgerTwoYears)
    = filter OrderService.matches (orders Scenario.ledgerTwoYears)
  /\ exists yearly monthly,
       OrderStatics.getMonthlySales Scenario.ledgerTwoYears
         = (Ok yearly, Scenario.ledgerTwoYears)
       /\ OrderService.getMonthlySales Scenario.ledgerTwoYears
         = (Ok monthly, Scenario.ledgerTwoYears)
       /\ forall m,
            OrderService.monthCount m monthly = OrderStatics.monthCount m yearly
            /\ (OrderService.monthTotal m monthly
                == OrderStatics.monthTotal m yearly)%Q.
Proof.
  assert (H : forall o, In o (orders Scenario.ledgerTwoYears) ->
                Order.orderStatus o = "delivered" <-> (Order.paymentDue o == 0)%Q).
  { simpl. intros o [<-|[<-|[]]]; vm_compute; split; intros _; reflexivity. }
  destruct (monthly_sales_agree_per_month Scenario.ledgerTwoYears)
    as [[Hsel _] Hrows].
  split; [exact (Hsel H) | exact (Hrows H)].
Defined.

(** ** Carts *)

Lemma validateItem_spec item db :
  (inStock (products db) item = true -> validateItem item db = (Ok tt, db))
  /\ (inStock (products db) item = false ->
      exists e, validateItem item db = (Throw e, db)).
Proof.
  unfold validateItem, inStock, bind, Product_findById.
  destruct (findProduct (Cart.productId item) (products db)) as [product|];
    [|split; [discriminate | eexists; reflexivity]].
  destruct (Product.stock product <? Cart.quantity item); simpl;
    split; try discriminate; try reflexivity.
  eexists; reflexivity.
Qed.

(** The validation hook of the cart never writes; it passes exactly when
    every line is in stock. *)
Lemma Cart_preSave_spec this db :
  (forallb (inStock (products db)) (Cart.items this) = true ->
   Cart_preSave this db = (Ok tt, db))
  /\ (forallb (inStock (products db)) (Cart.items this) = false ->
      exists e, Cart_preSave this db = (Throw e, db)).
Proof.
  unfold Cart_preSave. induction (Cart.items this) as [|item rest IH].
  - split; [reflexivity | discriminate].
  - cbn [forallb forOf]. unfold bind.
    destruct (validateItem_spec item db) as [Hok Hko].
    destruct (inStock (products db) item).
    + rewrite (Hok eq_refl). exact IH.
    + destruct (Hko eq_refl) as [e He]. rewrite He.
      split; [discriminate | eexists; reflexivity].
Qed.

Lemma mergeItem_same items guestItem :
  findItem (Cart.productId guestItem) (CartService.mergeItem items guestItem)
  = match findItem (Cart.productId guestItem) items with
    | Some userItem =>
        Some (Cart.set_quantity userItem
                (Cart.quantity userItem + Cart.quantity guestItem))
    | None => Some guestItem
    end.
Proof.
  unfold findItem. induction items as [|userItem rest IH]; simpl.
  - rewrite N.eqb_refl. reflexivity.
  - destruct (N.eqb (Cart.productId userItem) (Cart.productId guestItem)) eqn:E;
      simpl; rewrite E; [reflexivity | exact IH].
Qed.

Lemma mergeItem_other p items guestItem :
  Cart.productId guestItem <> p ->
  findItem p (CartService.mergeItem items guestItem) = findItem p items.
Proof.
  intros Hp. unfold findItem. induction items as [|userItem rest IH]; simpl.
  - apply N.eqb_neq in Hp. rewrite Hp. reflexivity.
  - destruct (N.eqb (Cart.productId userItem) (Cart.productId guestItem)) eqn:E;
      simpl.
    + apply N.eqb_eq in E. rewrite E. apply N.eqb_neq in Hp. rewrite Hp.
      reflexivity.
    + rewrite IH. reflexivity.
Qed.

Lemma findItem_absent p items :
  ~ In p (map Cart.productId items) -> findItem p items = None.
Proof.
  intros H. apply find_false. intros item Hin. apply N.eqb_neq.
  intros E. apply H. rewrite <- E. apply in_map. exact Hin.
Qed.

Lemma findItem_cons p item rest :
  findItem p (item :: rest)
  = if N.eqb (Cart.productId item) p then Some item else findItem p rest.
Proof. reflexivity. Qed.

(** The first line of the merged cart for each product, when the guest cart
    lists no product twice. *)
Lemma mergeItems_findItem p guestItems :
  NoDup (map Cart.productId guestItems) ->
  forall userItems,
    findItem p (CartService.mergeItems userItems guestItems)
    = match findItem p userItems, findItem p guestItems with
      | Some userItem, Some guestItem =>
          Some (Cart.set_quantity userItem
                  (Cart.quantity userItem + Cart.quantity guestItem))
      | Some userItem, None => Some userItem
      | None, other => other
      end.
Proof.
  unfold CartService.mergeItems.
  induction guestItems as [|g rest IH]; intros Hnd userItems.
  - simpl. destruct (findItem p userItems); reflexivity.
  - simpl in Hnd. inversion Hnd as [|x l Hnotin Hnd']; subst.
    cbn [fold_left]. rewrite (IH Hnd'), (findItem_cons p g rest).
    destruct (N.eqb_spec (Cart.productId g) p) as [E|E].
    + subst p. rewrite mergeItem_same, (findItem_absent _ _ Hnotin).
      destruct (findItem (Cart.productId g) userItems); reflexivity.
    + rewrite (mergeItem_other p _ _ E). reflexivity.
Qed.

Lemma mergeItem_absent items guestItem :
  ~ In (Cart.productId guestItem) (map Cart.productId items) ->
  CartService.mergeItem items guestItem = items ++ [guestItem].
Proof.
  induction items as [|userItem rest IH]; intros H; simpl; [reflexivity|].
  simpl in H. destruct (N.eqb_spec (Cart.productId userItem) (Cart.productId guestItem)) as [E|E].
  - exfalso. apply H. left. exact E.
  - rewrite IH; [reflexivity|]. intros Hin. apply H. right. exact Hin.
Qed.

Lemma mergeItems_append guestItems :
  forall userItems,
    NoDup (map Cart.productId (userItems ++ guestItems)) ->
    CartService.mergeItems userItems guestItems = userItems ++ guestItems.
Proof.
  unfold CartService.mergeItems.
  induction guestItems as [|g rest IH]; intros userItems Hnd; simpl.
  - rewrite app_nil_r. reflexivity.
  - rewrite mergeItem_absent.
    + rewrite IH; rewrite <- app_assoc; [reflexivity | exact Hnd].
    + rewrite map_app in Hnd. simpl in Hnd. apply NoDup_remove_2 in Hnd.
      intros Hin. apply Hnd. apply in_or_app. left. exact Hin.
Qed.

Lemma mergeItems_nil guestItems :
  NoDup (map Cart.productId guestItems) ->
  CartService.mergeItems [] guestItems = guestItems.
Proof. intros Hnd. apply (mergeItems_append guestItems []). exact Hnd. Qed.

Lemma find_owned_saved userId userCart userCart' guestCartId l :
  find (ownedBy userId) l = Some userCart ->
  ownedBy userId userCart' = true ->
  Cart._id userCart' = Cart._id userCart ->
  Cart._id userCart <> guestCartId ->
  find (ownedBy userId)
       (deleteById Cart._id guestCartId (replaceById Cart._id userCart' l))
  = Some userCart'.
Proof.
  intros Hfind Hown Hid Hneq.
  assert (Hkeep : negb (N.eqb (Cart._id userCart') guestCartId) = true).
  { apply negb_true_iff, N.eqb_neq. rewrite Hid. exact Hneq. }
  induction l as [|c l IH]; simpl in *; [discriminate|].
  destruct (N.eqb (Cart._id c) (Cart._id userCart')) eqn:E.
  - rewrite Hkeep. simpl. rewrite Hown. reflexivity.
  - destruct (ownedBy userId c) eqn:Hc.
    + inversion Hfind; subst c. rewrite Hid, N.eqb_refl in E. discriminate.
    + destruct (negb (N.eqb (Cart._id c) guestCartId)); simpl;
        [rewrite Hc|]; apply IH; exact Hfind.
Qed.

Lemma find_owned_created userId userCart' guestCartId l :
  find (ownedBy userId) l = None ->
  ownedBy userId userCart' = true ->
  Cart._id userCart' <> guestCartId ->
  find (ownedBy userId) (deleteById Cart._id guestCartId (l ++ [userCart']))
  = Some userCart'.
Proof.
  intros Hfind Hown Hneq.
  induction l as [|c l IH]; simpl in *.
  - apply N.eqb_neq in Hneq. rewrite Hneq. simpl. rewrite Hown. reflexivity.
  - destruct (ownedBy userId c) eqn:Hc; [discriminate|].
    destruct (negb (N.eqb (Cart._id c) guestCartId)); simpl;
      [rewrite Hc|]; apply IH; exact Hfind.
Qed.

(** C6, refuted on the carts of the scenario.  Merging the empty guest cart
    into Alice's returns "Guest cart is empty" and the guest cart is still
    there.  Merging the guest cart that holds two widgets into Alice's, which
    holds two, with three in stock, is rejected by the cart's stock
    validation: no cart changes, Alice still has two widgets and the guest
    cart is still there. *)
Lemma mergeCarts_keeps_guest_cart :
  (CartService.mergeCarts Scenario.alice (Some 8%N) Scenario.shopWithCarts
     = (Ok ("Guest cart is empty", None), Scenario.shopWithCarts)
   /\ findCart 8%N (carts Scenario.shopWithCarts) = Some Scenario.emptyGuestCart)
  /\ (CartService.mergeCarts Scenario.alice (Some 6%N) Scenario.shopWithCarts
        = (Throw (AppError
                    "Insufficient stock for Widget. Available: 3, Requested: 4" 400),
           Scenario.shopWithCarts)
      /\ findCart 6%N (carts Scenario.shopWithCarts) = Some Scenario.guestCart
      /\ option_map Cart.quantity
           (findItem 1%N (itemsOf (find (ownedBy Scenario.alice)
                                        (carts Scenario.shopWithCarts))))
         = Some 2).
Proof. repeat split. Qed.

(** C6, amended.  When the guest cart is missing or empty, [mergeCarts]
    returns "Guest cart is empty" and writes nothing.  Otherwise, for a guest
    cart other than the user's own that lists no product twice: if some line
    of the merged cart is not covered by its product's stock the call throws
    and writes nothing; if every line is covered, the call succeeds, the
    user's cart (created when there was none) holds the merged lines and the
    guest cart is gone.  In the merged lines a product of both carts carries
    the sum of the two quantities, and a product of the guest cart alone
    carries the guest line unchanged. *)
Theorem mergeCarts_cases userId guestCartId db :
  ((findCart guestCartId (carts db) = None
    \/ exists guestCart, findCart guestCartId (carts db) = Some guestCart
                         /\ Cart.items guestCart = []) ->
   CartService.mergeCarts userId (Some guestCartId) db
     = (Ok ("Guest cart is empty", None), db))
  /\ forall guestCart,
       findCart guestCartId (carts db) = Some guestCart ->
       Cart.items guestCart <> [] ->
       NoDup (map Cart.productId (Cart.items guestCart)) ->
       match find (ownedBy userId) (carts db) with
       | Some userCart => Cart._id userCart <> guestCartId
       | None => nextId db <> guestCartId
       end ->
       let userItems := itemsOf (find (ownedBy userId) (carts db)) in
       let merged := CartService.mergeItems userItems (Cart.items guestCart) in
       (forallb (inStock (products db)) merged = false ->
        exists e,
          CartService.mergeCarts userId (Some guestCartId) db = (Throw e, db))
       /\ (forallb (inStock (products db)) merged = true ->
           exists userCart' db',
             CartService.mergeCarts userId (Some guestCartId) db
               = (Ok ("Cart merged successfully", Some userCart'), db')
             /\ Cart.items userCart' = merged
             /\ find (ownedBy userId) (carts db') = Some userCart'
             /\ findCart guestCartId (carts db') = None
             /\ products db' = products db)
       /\ (forall p userItem guestItem,
             findItem p userItems = Some userItem ->
             findItem p (Cart.items guestCart) = Some guestItem ->
             findItem p merged
             = Some (Cart.set_quantity userItem
                       (Cart.quantity userItem + Cart.quantity guestItem)))
       /\ (forall p guestItem,
             findItem p userItems = None ->
             findItem p (Cart.items guestCart) = Some guestItem ->
             findItem p merged = Some guestItem).
Proof.
  split.
  - intros [Hnone | [guestCart [Hsome Hempty]]];
      unfold CartService.mergeCarts, bind, Cart_findById.
    + rewrite Hnone. reflexivity.
    + rewrite Hsome, Hempty. reflexivity.
  - intros guestCart Hguest Hitems Hnd Hother userItems merged.
    assert (Hrun : CartService.mergeCarts userId (Some guestCartId) db
                   = (userCart <-
                        match find (ownedBy userId) (carts db) with
                        | None => Cart_create (Some userId) (Cart.items guestCart)
                        | Some userCart =>
                            Cart_save (Cart.set_items userCart merged) ;;;
                            ret (Cart.set_items userCart merged)
                        end ;;
                      Cart_findByIdAndDelete guestCartId ;;;
                      ret ("Cart merged successfully", Some userCart)) db).
    { unfold CartService.mergeCarts, bind at 1, Cart_findById. rewrite Hguest.
      destruct (Cart.items guestCart) as [|i is_] eqn:E; [contradiction|].
      unfold bind at 1, Cart_findOne. subst merged userItems.
      destruct (find (ownedBy userId) (carts db)); reflexivity. }
    rewrite Hrun. clear Hrun.
    split; [|split; [|split]].
    + intros Hbad. subst merged userItems.
      destruct (find (ownedBy userId) (carts db)) as [userCart|] eqn:Huser;
        unfold itemsOf in *.
      * destruct (Cart_preSave_spec (Cart.set_items userCart
                    (CartService.mergeItems (Cart.items userCart)
                       (Cart.items guestCart))) db) as [_ Hko].
        destruct (Hko Hbad) as [e He].
        unfold bind, Cart_save. unfold bind. rewrite He. eexists; reflexivity.
      * rewrite mergeItems_nil in Hbad by exact Hnd.
        destruct (Cart_preSave_spec (Cart.mk (nextId db) (Some userId)
                    (Cart.items guestCart)) db) as [_ Hko].
        destruct (Hko Hbad) as [e He].
        unfold bind, Cart_create. unfold bind. rewrite He. eexists; reflexivity.
    + intros Hgood. subst merged userItems.
      destruct (find (ownedBy userId) (carts db)) as [userCart|] eqn:Huser;
        unfold itemsOf in *.
      * destruct (Cart_preSave_spec (Cart.set_items userCart
                    (CartService.mergeItems (Cart.items userCart)
                       (Cart.items guestCart))) db) as [Hok _].
        unfold bind, Cart_save. unfold bind. rewrite (Hok Hgood).
        do 2 eexists. split; [reflexivity|]. split; [reflexivity|].
        cbn [carts set_carts products].
        split; [|split; [apply find_deleteById | reflexivity]].
        apply (find_owned_saved userId userCart); auto.
        destruct (find_some _ _ Huser) as [_ Hown].
        unfold ownedBy in *. exact Hown.
      * rewrite mergeItems_nil in * by exact Hnd.
        destruct (Cart_preSave_spec (Cart.mk (nextId db) (Some userId)
                    (Cart.items guestCart)) db) as [Hok _].
        unfold bind, Cart_create. unfold bind. rewrite (Hok Hgood).
        do 2 eexists. split; [reflexivity|]. split; [reflexivity|].
        cbn [carts set_carts bump products].
        split; [|split; [apply find_deleteById | reflexivity]].
        apply find_owned_created; auto.
        unfold ownedBy. simpl. apply N.eqb_refl.
    + intros p userItem guestItem Hu Hg. subst merged.
      rewrite (mergeItems_findItem p _ Hnd), Hu, Hg. reflexivity.
    + intros p guestItem Hu Hg. subst merged.
      rewrite (mergeItems_findItem p _ Hnd), Hu, Hg. reflexivity.
Qed.

Lemma mergeCarts_cases_witness :
  CartService.mergeCarts Scenario.alice (Some 8%N) Scenario.shopWithCarts
    = (Ok ("Guest cart is empty", None), Scenario.shopWithCarts)
  /\ exists userCart' db',
       CartService.mergeCarts Scenario.alice (Some 7%N) Scenario.shopWithCarts
         = (Ok ("Cart merged successfully", Some userCart'), db')
       /\ Cart.items userCart'
          = CartService.mergeItems [Scenario.twoWidgets]
              [Scenario.oneWidget; Scenario.oneGadget]
       /\ find (ownedBy Scenario.alice) (carts db') = Some userCart'
       /\ findCart 7%N (carts db') = None
       /\ products db' = products Scenario.shopWithCarts.
Proof.
  split.
  - apply (mergeCarts_cases Scenario.alice 8%N Scenario.shopWithCarts).
    right. exists Scenario.emptyGuestCart. split; reflexivity.
  - apply (mergeCarts_cases Scenario.alice 7%N Scenario.shopWithCarts)
      with (guestCart := Scenario.smallGuestCart).
    + reflexivity.
    + simpl. discriminate.
    + simpl. repeat constructor; simpl; intuition discriminate.
    + simpl. discriminate.
    + reflexivity.
Defined.







(** * Further properties of the code

    The properties of this part are stated for stored documents that satisfy
    their schemas.  Where a caller supplies a value that a schema constrains
    (a new order, a status, a review, the lines of a cart), the constraint is
    a hypothesis of the property. *)

(** ** The stock hooks of the order model *)

Lemma findProduct_Some i l p :
  findProduct i l = Some p -> In p l /\ Product._id p = i.
Proof.
  unfold findProduct. intros H. destruct (find_some _ _ H) as [Hin Hid].
  apply N.eqb_eq in Hid. auto.
Qed.


Lemma findProduct_untouched i l p' :
  Product._id p' <> i ->
  findProduct i (replaceById Product._id p' l) = findProduct i l.
Proof.
  intros Hneq. unfold findProduct, replaceById.
  induction l as [|a l IH]; simpl; [reflexivity|].
  destruct (N.eqb_spec (Product._id a) (Product._id p')) as [E|E]; simpl.
  - apply N.eqb_neq in Hneq. rewrite Hneq.
    rewrite E. rewrite Hneq. exact IH.
  - rewrite IH. reflexivity.
Qed.

(** A store step that rewrites the counters of the product a line names. *)
Section CounterSteps.
Variable step : Order.Item -> M unit.
Variable pre : Order.Item -> Product.t -> Prop.
Variable next : Order.Item -> Product.t -> Product.t.
Hypothesis next_id : forall item p, Product._id (next item p) = Product._id p.
Hypothesis step_ok :
  forall item p db,
    findProduct (Order.product item) (products db) = Some p ->
    pre item p ->
    step item db
    = (Ok tt, set_products db (replaceById Product._id (next item p) (products db))).


End CounterSteps.



(** What [Order.create] does with a document that passes the validation. *)
Lemma Order_create_unfold now doc db :
  Order_valid doc = true ->
  Order_create now doc db
  = let this := Order.set_orderNumber (Order.set__id doc (nextId db))
                  (Some (now, Z.of_nat (List.length (orders db)) + 1)) in
    match promiseAll (map reserveItem (Order.orderItems doc)) db with
    | (Ok _, db') => (Ok this, bump (set_orders db' (orders db' ++ [this])))
    | (Throw e, db') => (Throw e, db')
    end.
Proof.
  intros Hvalid.
  unfold Order_create, bind, Order_preSave_orderNumber, Order_countDocuments,
    Order_preSave_reduceStock, bind, ret. rewrite Hvalid.
  cbn [negb orb Order.orderItems Order.set_orderNumber Order.set__id].
  destruct (promiseAll (map reserveItem (Order.orderItems doc)) db) as [[[]|e] db'];
    reflexivity.
Qed.



Lemma find_last {A} (f : A -> bool) (l : list A) (x : A) :
  find f l = None -> f x = true -> find f (l ++ [x]) = Some x.
Proof.
  induction l as [|a l IH]; simpl; intros Hnone Hx.
  - rewrite Hx. reflexivity.
  - destruct (f a); [discriminate | auto].
Qed.





(** The reservation callback writes at most the product its line names. *)
Lemma reserveItem_frame item db :
  orders (snd (reserveItem item db)) = orders db
  /\ payments (snd (reserveItem item db)) = payments db
  /\ carts (snd (reserveItem item db)) = carts db
  /\ forall i, i <> Order.product item ->
       findProduct i (products (snd (reserveItem item db)))
       = findProduct i (products db).
Proof.
  unfold reserveItem, bind, Product_findById.
  destruct (findProduct (Order.product item) (products db)) as [p|] eqn:Hfind;
    [|simpl; auto].
  destruct (Product.stock p <? Order.quantity item); [simpl; auto|].
  unfold Product_save, Product_preSave, bind.
  destruct (negb (Qle_bool 0 _)); [simpl; auto|].
  cbn [snd ret orders payments carts products set_products].
  repeat split. intros i Hi. apply findProduct_untouched.
  destruct (findProduct_Some _ _ _ Hfind) as [_ Hid].
  cbn [Product._id Product.set_counters]. rewrite Hid. auto.
Qed.

Lemma reserveItem_short item db :
  findProduct (Order.product item) (products db) = None
  \/ (exists p, findProduct (Order.product item) (products db) = Some p
                /\ Product.stock p < Order.quantity item) ->
  exists e, fst (reserveItem item db) = Throw e.
Proof.
  unfold reserveItem, bind, Product_findById.
  intros [Hnone | [p [Hsome Hshort]]].
  - rewrite Hnone. eexists; reflexivity.
  - rewrite Hsome. apply Z.ltb_lt in Hshort. rewrite Hshort. eexists; reflexivity.
Qed.

Lemma promiseAll_cons f rest db :
  snd (promiseAll (f :: rest) db) = snd (promiseAll rest (snd (f db)))
  /\ ((exists e, fst (f db) = Throw e)
      \/ (exists e, fst (promiseAll rest (snd (f db))) = Throw e) ->
      exists e, fst (promiseAll (f :: rest) db) = Throw e).
Proof.
  cbn [promiseAll]. destruct (f db) as [[[]|e] db1]; cbn [fst snd].
  - split; [reflexivity|]. intros [[e He]|H]; [discriminate | exact H].
  - split; [reflexivity|]. intros _. eexists; reflexivity.
Qed.

Lemma promiseAll_reserve_short lines item :
  NoDup (map Order.product lines) ->
  In item lines ->
  forall db,
    findProduct (Order.product item) (products db) = None
    \/ (exists p, findProduct (Order.product item) (products db) = Some p
                  /\ Product.stock p < Order.quantity item) ->
    exists e, fst (promiseAll (map reserveItem lines) db) = Throw e.
Proof.
  induction lines as [|a rest IH]; intros Hnd Hin db Hshort; [contradiction|].
  simpl in Hnd. inversion Hnd as [|x l Hnotin Hnd']; subst.
  cbn [map]. apply promiseAll_cons.
  destruct Hin as [->|Hin].
  - left. apply reserveItem_short. exact Hshort.
  - right. apply (IH Hnd' Hin).
    destruct (reserveItem_frame a db) as [_ [_ [_ Hframe]]].
    rewrite Hframe; [exact Hshort|].
    intros E. apply Hnotin. rewrite <- E. apply in_map. exact Hin.
Qed.

Lemma promiseAll_reserve_frame lines db :
  orders (snd (promiseAll (map reserveItem lines) db)) = orders db
  /\ payments (snd (promiseAll (map reserveItem lines) db)) = payments db
  /\ carts (snd (promiseAll (map reserveItem lines) db)) = carts db.
Proof.
  revert db. induction lines as [|a rest IH]; intros db; [simpl; auto|].
  cbn [map]. destruct (promiseAll_cons (reserveItem a) (map reserveItem rest) db)
    as [-> _].
  destruct (IH (snd (reserveItem a db))) as [-> [-> ->]].
  destruct (reserveItem_frame a db) as [-> [-> [-> _]]]. auto.
Qed.

(** X3. [Order.create] on lines that name pairwise distinct products, one of
    which is missing from the catalogue or has less stock than the line
    asks: the creation is refused, and no order, payment or cart is written. *)
Theorem Order_create_rejects_short_line now doc db item :
  NoDup (map Order.product (Order.orderItems doc)) ->
  In item (Order.orderItems doc) ->
  findProduct (Order.product item) (products db) = None
  \/ (exists p, findProduct (Order.product item) (products db) = Some p
                /\ Product.stock p < Order.quantity item) ->
  exists e db',
    Order_create now doc db = (Throw e, db')
    /\ orders db' = orders db
    /\ payments db' = payments db
    /\ carts db' = carts db.
Proof.
  intros Hnd Hin Hshort.
  destruct (Order_valid doc) eqn:Hvalid.
  - destruct (promiseAll_reserve_short _ item Hnd Hin db Hshort) as [e He].
    pose proof (promiseAll_reserve_frame (Order.orderItems doc) db) as Hframe.
    rewrite (Order_create_unfold _ _ _ Hvalid). cbv zeta.
    destruct (promiseAll (map reserveItem (Order.orderItems doc)) db) as [r db'].
    cbn [fst snd] in *. subst r. exists e, db'. split; [reflexivity | exact Hframe].
  - unfold Order_create. rewrite Hvalid. do 2 eexists.
    split; [reflexivity|]. auto.
Qed.

Lemma Order_create_rejects_short_line_witness :
  exists e db',
    Order_create Scenario.t0 Scenario.placedWithGadgets
      (mkDB [Scenario.widget; Scenario.gadget] [] [] [] 10%N)
      = (Throw e, db')
    /\ orders db' = []
    /\ payments db' = []
    /\ carts db' = [].
Proof.
  apply (Order_create_rejects_short_line Scenario.t0 Scenario.placedWithGadgets
           (mkDB [Scenario.widget; Scenario.gadget] [] [] [] 10%N)
           (Order.mkItem 4%N "Gadget" 9 20)).
  - simpl. repeat constructor; simpl; intuition discriminate.
  - simpl. auto.
  - right. exists Scenario.gadget. split; [reflexivity | vm_compute; reflexivity].
Defined.

(** ** Administration of orders *)

Lemma findOwnedOrder_saved orderId userId l order order' :
  findOwnedOrder orderId userId l = Some order ->
  Order._id order' = orderId -> Order.user order' = userId ->
  findOwnedOrder orderId userId (replaceById Order._id order' l) = Some order'.
Proof.
  intros Hfind Hid Huser. unfold findOwnedOrder, replaceById in *.
  induction l as [|a l IH]; simpl in *; [discriminate|].
  destruct (N.eqb_spec (Order._id a) (Order._id order')) as [E|E]; simpl.
  - rewrite Hid, Huser, !N.eqb_refl. reflexivity.
  - rewrite Hid in E. apply N.eqb_neq in E. rewrite E in *. simpl in *.
    apply IH. exact Hfind.
Qed.

Lemma findOwnedOrder_updated orderId userId (g : Order.t -> Order.t) l :
  (forall o, Order._id (g o) = Order._id o /\ Order.user (g o) = Order.user o) ->
  findOwnedOrder orderId userId
    (map (fun o => if N.eqb (Order._id o) orderId then g o else o) l)
  = option_map g (findOwnedOrder orderId userId l).
Proof.
  intros Hg. unfold findOwnedOrder.
  induction l as [|a l IH]; simpl; [reflexivity|].
  destruct (N.eqb (Order._id a) orderId) eqn:E; simpl.
  - destruct (Hg a) as [-> ->]. rewrite E. simpl.
    destruct (N.eqb (Order.user a) userId); [reflexivity | exact IH].
  - rewrite E. simpl. exact IH.
Qed.

(** X4. The final payment is attempted once.  On a delivered order of the
    caller with a balance due, [completePayment] leaves the stored order with
    nothing due and with status "processing" (written by the pre-save hook of
    the payment), whether or not the payment can be stored, so every later
    call is refused with "Order not delivered yet".  The call returns the
    balance and stores one payment (order, user, status "paid") when no
    payment without payment details is stored; when one is, the insert fails
    with the duplicate-key error 11000 and no payment is stored. *)
Theorem completePayment_once now userId orderId db order :
  findOwnedOrder orderId userId (orders db) = Some order ->
  Order.orderStatus order = "delivered" ->
  ~ (Order.paymentDue order == 0)%Q ->
  exists result db',
    OrderService.completePayment now userId orderId db = (result, db')
    /\ (existsb bare (payments db) = false ->
        result = Ok ("Final payment completed", Order.paymentDue order)
        /\ payments db'
           = payments db ++ [Payment.mk (nextId db) orderId userId "paid" None])
    /\ (existsb bare (payments db) = true ->
        result = Throw (MongoServerError 11000 "paymentDetails.transactionId_1")
        /\ payments db' = payments db)
    /\ (exists order', findOwnedOrder orderId userId (orders db') = Some order'
                       /\ Order.orderStatus order' = "processing"
                       /\ Order.paymentDue order' = 0%Q)
    /\ products db' = products db
    /\ forall now',
         OrderService.completePayment now' userId orderId db'
         = (Throw (AppError "Order not delivered yet" 400), db').
Proof.
  intros Hfind Hstatus Hdue.
  destruct (findOwnedOrder_Some _ _ _ _ Hfind) as [Hin [Hid Huser]].
  assert (Hdue' : Qeq_bool (Order.paymentDue order) 0 = false).
  { destruct (Qeq_bool (Order.paymentDue order) 0) eqn:E; [|reflexivity].
    apply Qeq_bool_iff in E. contradiction. }
  rewrite (completePayment_run now userId orderId db order Hfind Hstatus Hdue').
  cbv zeta.
  set (order1 := Order.set_paymentInfo (Order.set_paymentDue order 0%Q) _).
  set (sync := Order.apply (Order.mkUpdate (Some "paid") (Some "processing"))).
  set (db1 := set_orders db _).
  assert (Hafter : findOwnedOrder orderId userId (orders db1)
                   = Some (sync order1)).
  { cbn [db1 orders set_orders].
    rewrite findOwnedOrder_updated by (intros o; split; reflexivity).
    rewrite (findOwnedOrder_saved _ _ _ order order1); auto. }
  assert (Hlater : forall db2 now',
             orders db2 = orders db1 ->
             OrderService.completePayment now' userId orderId db2
             = (Throw (AppError "Order not delivered yet" 400), db2)).
  { intros db2 now' Horders.
    apply (completePayment_guards now' userId orderId db2 (sync order1)).
    - rewrite Horders. exact Hafter.
    - discriminate. }
  destruct (existsb bare (payments db)).
  - exists (Throw (MongoServerError 11000 "paymentDetails.transactionId_1")), db1.
    split; [reflexivity|]. split; [discriminate|].
    split; [intros _; split; reflexivity|].
    split; [exists (sync order1); auto|]. split; [reflexivity|].
    intros now'. apply Hlater. reflexivity.
  - eexists. eexists. split; [reflexivity|].
    split; [intros _; split; reflexivity|]. split; [discriminate|].
    split; [exists (sync order1); auto|]. split; [reflexivity|].
    intros now'. apply Hlater. reflexivity.
Qed.

Lemma completePayment_once_witness :
  exists result db',
    OrderService.completePayment Scenario.t1 Scenario.alice 11%N
      Scenario.shopAfterDelivery = (result, db')
    /\ result = Ok ("Final payment completed", 75%Q)
    /\ payments db'
       = [Scenario.deposit; Payment.mk 12%N 11%N Scenario.alice "paid" None]
    /\ forall now',
         OrderService.completePayment now' Scenario.alice 11%N db'
         = (Throw (AppError "Order not delivered yet" 400), db').
Proof.
  destruct (completePayment_once Scenario.t1 Scenario.alice 11%N
              Scenario.shopAfterDelivery Scenario.deliveredUnpaid)
    as [result [db' [Hrun [Hfree [_ [_ [_ Hlater]]]]]]];
    [reflexivity | reflexivity | vm_compute; discriminate |].
  exists result, db'. split; [exact Hrun|].
  destruct (Hfree eq_refl) as [Hresult Hpayments].
  split; [exact Hresult|]. split; [exact Hpayments | exact Hlater].
Defined.

Lemma findOrder_Some i l o : findOrder i l = Some o -> In o l /\ Order._id o = i.
Proof.
  unfold findOrder. intros H. destruct (find_some _ _ H) as [Hin Hid].
  apply N.eqb_eq in Hid. auto.
Qed.

Lemma findOrder_owned i u l o :
  findOrder i l = Some o -> Order.user o = u -> findOwnedOrder i u l = Some o.
Proof.
  unfold findOrder, findOwnedOrder. intros Hfind Huser.
  induction l as [|a l IH]; simpl in *; [discriminate|].
  destruct (N.eqb (Order._id a) i); simpl.
  - inversion Hfind; subst a. rewrite Huser, N.eqb_refl. reflexivity.
  - apply IH. exact Hfind.
Qed.

(** What [updateOrderStatus] writes for an order it finds and a status of
    the schema. *)
Lemma updateOrderStatus_run now orderId status db order :
  findOrder orderId (orders db) = Some order ->
  oneOf orderStatuses status = true ->
  let order' :=
    if String.eqb status "delivered"
    then Order.set_deliveredAt (Order.set_orderStatus order status) now
    else Order.set_orderStatus order status in
  OrderService.updateOrderStatus now orderId status db
  = (Ok order', set_orders db (replaceById Order._id order' (orders db))).
Proof.
  intros Hfind Hstatus order'.
  unfold OrderService.updateOrderStatus, bind at 1, Order_findById,
    Order_findOneById.
  rewrite Hfind, Hstatus. reflexivity.
Qed.



(** X6. Delivery opens the final payment: once [updateOrderStatus] has set
    an order with a balance due to "delivered", and no payment without
    payment details is stored, [completePayment] by the owner of the order
    succeeds, returns exactly that balance and stores one payment document:
    the order, the user and the status "paid". *)
Theorem deliver_then_pay now now' userId orderId db order :
  findOrder orderId (orders db) = Some order ->
  Order.user order = userId ->
  ~ (Order.paymentDue order == 0)%Q ->
  existsb bare (payments db) = false ->
  exists order' db1 db2,
    OrderService.updateOrderStatus now orderId "delivered" db = (Ok order', db1)
    /\ OrderService.completePayment now' userId orderId db1
       = (Ok ("Final payment completed", Order.paymentDue order), db2)
    /\ payments db2
       = payments db ++ [Payment.mk (nextId db) orderId userId "paid" None].
Proof.
  intros Hfind Huser Hdue Hfree.
  destruct (findOrder_Some _ _ _ Hfind) as [Hin Hid].
  rewrite (updateOrderStatus_run now orderId "delivered" db order Hfind eq_refl).
  cbv zeta. cbn [String.eqb Ascii.eqb Bool.eqb].
  set (order' := Order.set_deliveredAt _ _).
  set (db1 := set_orders db _).
  assert (Hmine : findOwnedOrder orderId userId (orders db1) = Some order').
  { apply (findOwnedOrder_saved _ _ _ order); auto.
    apply findOrder_owned; assumption. }
  assert (Hdue' : Qeq_bool (Order.paymentDue order') 0 = false).
  { change (Order.paymentDue order') with (Order.paymentDue order).
    destruct (Qeq_bool (Order.paymentDue order) 0) eqn:E; [|reflexivity].
    apply Qeq_bool_iff in E. contradiction. }
  exists order', db1. eexists. split; [reflexivity|].
  rewrite (completePayment_run now' userId orderId db1 order' Hmine eq_refl Hdue').
  cbv zeta. change (payments db1) with (payments db). rewrite Hfree.
  split; reflexivity.
Qed.

Lemma deliver_then_pay_witness :
  exists order' db1 db2,
    OrderService.updateOrderStatus Scenario.t1 11%N "delivered"
      Scenario.shopAfterOrder = (Ok order', db1)
    /\ OrderService.completePayment Scenario.t25 Scenario.alice 11%N db1
       = (Ok ("Final payment completed", 75%Q), db2)
    /\ payments db2
       = payments Scenario.shopAfterOrder
         ++ [Payment.mk 12%N 11%N Scenario.alice "paid" None].
Proof.
  apply (deliver_then_pay Scenario.t1 Scenario.t25 Scenario.alice 11%N
           Scenario.shopAfterOrder Scenario.placed);
    [reflexivity | reflexivity | vm_compute; discriminate | reflexivity].
Defined.



(** ** Listings and totals *)

Lemma insertNewestFirst_perm o l :
  Permutation (OrderService.insertNewestFirst o l) (o :: l).
Proof.
  induction l as [|h rest IH]; simpl; [apply Permutation_refl|].
  destruct (Order.createdAt h <=? Order.createdAt o); [apply Permutation_refl|].
  apply perm_trans with (h :: o :: rest); [|apply perm_swap].
  apply perm_skip. exact IH.
Qed.

Lemma sortNewestFirst_perm l : Permutation (OrderService.sortNewestFirst l) l.
Proof.
  induction l as [|o rest IH]; simpl; [apply perm_nil|].
  apply perm_trans with (o :: OrderService.sortNewestFirst rest).
  - apply insertNewestFirst_perm.
  - apply perm_skip. exact IH.
Qed.

Lemma insertNewestFirst_sorted o l :
  Sorted (fun a b => Order.createdAt b <= Order.createdAt a) l ->
  Sorted (fun a b => Order.createdAt b <= Order.createdAt a)
         (OrderService.insertNewestFirst o l).
Proof.
  induction l as [|h rest IH]; intros Hs; simpl.
  - repeat constructor.
  - destruct (Z.leb_spec (Order.createdAt h) (Order.createdAt o)) as [L|L].
    + constructor; [exact Hs | constructor; exact L].
    + inversion Hs as [|x l' Hs' Hhd]; subst. constructor; [apply IH; exact Hs'|].
      destruct rest as [|h' rest']; simpl.
      * constructor. lia.
      * destruct (Order.createdAt h' <=? Order.createdAt o).
        -- constructor. lia.
        -- inversion Hhd; subst. constructor. assumption.
Qed.

Lemma sortNewestFirst_sorted l :
  StronglySorted (fun a b => Order.createdAt b <= Order.createdAt a)
                 (OrderService.sortNewestFirst l).
Proof.
  apply Sorted_StronglySorted.
  - intros a b c Hab Hbc. lia.
  - induction l as [|o rest IH]; simpl; [constructor|].
    apply insertNewestFirst_sorted. exact IH.
Qed.

(** X8. [getUserOrders] reads without writing and returns exactly the orders
    of the caller, each one once, newest first: an order is in the answer if
    and only if it is stored and belongs to the caller. *)
Theorem getUserOrders_own_newest_first userId db :
  exists l,
    OrderService.getUserOrders userId db = (Ok l, db)
    /\ Permutation l (filter (fun o => N.eqb (Order.user o) userId) (orders db))
    /\ (forall o, In o l <-> In o (orders db) /\ Order.user o = userId)
    /\ StronglySorted (fun a b => Order.createdAt b <= Order.createdAt a) l.
Proof.
  eexists. split; [reflexivity|]. split; [apply sortNewestFirst_perm|]. split.
  - intros o. split.
    + intros Hin. apply (Permutation_in _ (sortNewestFirst_perm _)) in Hin.
      apply filter_In in Hin. destruct Hin as [Hin Hu].
      apply N.eqb_eq in Hu. auto.
    + intros [Hin Hu].
      apply (Permutation_in _ (Permutation_sym (sortNewestFirst_perm _))).
      apply filter_In. split; [exact Hin | apply N.eqb_eq; exact Hu].
  - apply sortNewestFirst_sorted.
Qed.

Lemma fold_addSale l a :
  (fold_left OrderService.addSale l a
   == a + Aggregate.docTotal OrderService.keyOf (fun _ => true)
            (filter OrderService.matches l))%Q.
Proof.
  revert a. induction l as [|o rest IH]; intros a; simpl.
  - ring.
  - rewrite IH. unfold OrderService.addSale, OrderService.matches.
    destruct (Qeq_bool (Order.paymentDue o) 0); simpl; ring.
Qed.

Lemma docTotal_insertNewestFirst o l :
  (Aggregate.docTotal OrderService.keyOf (fun _ => true)
     (filter OrderService.matches (OrderService.insertNewestFirst o l))
   == Aggregate.docTotal OrderService.keyOf (fun _ => true)
        (filter OrderService.matches (o :: l)))%Q.
Proof.
  induction l as [|h rest IH]; simpl; [reflexivity|].
  destruct (Order.createdAt h <=? Order.createdAt o); simpl; [reflexivity|].
  simpl in IH.
  destruct (OrderService.matches h), (OrderService.matches o); simpl in *;
    rewrite IH; ring.
Qed.

Lemma docTotal_sortNewestFirst l :
  (Aggregate.docTotal OrderService.keyOf (fun _ => true)
     (filter OrderService.matches (OrderService.sortNewestFirst l))
   == Aggregate.docTotal OrderService.keyOf (fun _ => true)
        (filter OrderService.matches l))%Q.
Proof.
  induction l as [|o rest IH]; simpl; [reflexivity|].
  rewrite docTotal_insertNewestFirst. simpl.
  destruct (OrderService.matches o); simpl; rewrite IH; reflexivity.
Qed.

(** X9. The two sales figures of the admin service agree: the [totalSales]
    of [getAllOrders] equals the sum of the monthly totals that
    [getMonthlySales] reports, whatever the collection of orders. *)
Theorem getAllOrders_total_is_monthly_sum db :
  exists sorted totalSales monthly,
    OrderService.getAllOrders db = (Ok (sorted, totalSales), db)
    /\ OrderService.getMonthlySales db = (Ok monthly, db)
    /\ Permutation sorted (orders db)
    /\ (totalSales == Aggregate.totalWhere (fun _ => true) monthly)%Q.
Proof.
  do 3 eexists. split; [reflexivity|]. split; [reflexivity|].
  split; [apply sortNewestFirst_perm|].
  rewrite fold_addSale, docTotal_sortNewestFirst.
  rewrite (totalWhere_pipeline Z.eqb Z.leb OrderService.keyOf (fun _ => true))
    by (intros a b E; apply Z.eqb_eq; exact E).
  ring.
Qed.

(** ** Carts: creation, lines, totals *)

Lemma Cart_create_empty owner db :
  Cart_create owner [] db
  = (Ok (Cart.mk (nextId db) owner []),
     bump (set_carts db (carts db ++ [Cart.mk (nextId db) owner []]))).
Proof. reflexivity. Qed.


(** X10. A registered user gets one cart: the first [getOrCreateCart] returns
    the stored cart of the user or stores an empty one, and from then on
    every call returns that same cart and writes nothing. *)
Theorem getOrCreateCart_once userId sessionId sessionId' db :
  exists cart db',
    CartService.getOrCreateCart (Some userId) sessionId db = (Ok cart, db')
    /\ find (ownedBy userId) (carts db') = Some cart
    /\ CartService.getOrCreateCart (Some userId) sessionId' db' = (Ok cart, db')
    /\ (forall stored, find (ownedBy userId) (carts db) = Some stored ->
          cart = stored /\ db' = db)
    /\ (find (ownedBy userId) (carts db) = None ->
          Cart.items cart = []
          /\ carts db' = carts db ++ [cart])
    /\ products db' = products db.
Proof.
  unfold CartService.getOrCreateCart, bind, Cart_findOne.
  destruct (find (ownedBy userId) (carts db)) as [stored|] eqn:E.
  - exists stored, db. rewrite E.
    split; [reflexivity|]. split; [reflexivity|]. split; [reflexivity|].
    split; [intros s Hs; inversion Hs; auto|].
    split; [discriminate | reflexivity].
  - rewrite Cart_create_empty.
    assert (Hnew : find (ownedBy userId)
                     (carts db ++ [Cart.mk (nextId db) (Some userId) []])
                   = Some (Cart.mk (nextId db) (Some userId) [])).
    { apply find_last; [exact E|]. unfold ownedBy. simpl. apply N.eqb_refl. }
    do 2 eexists. split; [reflexivity|].
    cbn [carts bump set_carts products]. rewrite Hnew.
    split; [reflexivity|]. split; [reflexivity|].
    split; [discriminate|]. split; [intros _; split; reflexivity | reflexivity].
Qed.

(** X11. A caller without a cart leaves a trace even when the operation
    fails: for a registered user who has no cart, [getCartItemsForOrder]
    throws "Cart is empty" and [updateCartItemQuantity] throws "Item not
    found in cart", and in both cases a new empty cart of that user has been
    stored. *)
Theorem failing_operations_create_the_cart userId sessionId productId db :
  find (ownedBy userId) (carts db) = None ->
  let cart := Cart.mk (nextId db) (Some userId) [] in
  let db' := bump (set_carts db (carts db ++ [cart])) in
  CartService.getCartItemsForOrder (Some userId) sessionId db
    = (Throw (AppError "Cart is empty" 400), db')
  /\ CartService.updateCartItemQuantity (Some userId) sessionId productId 1 db
     = (Throw (AppError "Item not found in cart" 404), db').
Proof.
  intros Hnone cart db'.
  assert (Hget : CartService.getOrCreateCart (Some userId) sessionId db
                 = (Ok cart, db')).
  { unfold CartService.getOrCreateCart, bind, Cart_findOne. rewrite Hnone.
    apply Cart_create_empty. }
  split.
  - unfold CartService.getCartItemsForOrder, bind. rewrite Hget. reflexivity.
  - unfold CartService.updateCartItemQuantity. cbn [Z.eqb Z.ltb Z.compare orb].
    unfold bind at 1. rewrite Hget. reflexivity.
Qed.

Lemma failing_operations_create_the_cart_witness :
  CartService.getCartItemsForOrder (Some Scenario.bob) None Scenario.shopWithCarts
    = (Throw (AppError "Cart is empty" 400),
       bump (set_carts Scenario.shopWithCarts
               (carts Scenario.shopWithCarts
                ++ [Cart.mk 10%N (Some Scenario.bob) []])))
  /\ CartService.updateCartItemQuantity (Some Scenario.bob) None 1%N 1
       Scenario.shopWithCarts
     = (Throw (AppError "Item not found in cart" 404),
        bump (set_carts Scenario.shopWithCarts
                (carts Scenario.shopWithCarts
                 ++ [Cart.mk 10%N (Some Scenario.bob) []]))).
Proof.
  apply (failing_operations_create_the_cart Scenario.bob None 1%N
           Scenario.shopWithCarts).
  reflexivity.
Defined.

(** X12. [addItemToCart] refuses, before any cart is read or created: a
    missing product id or a quantity of zero or less ("Invalid product or
    quantity", 400), a product that does not exist ("Product not found",
    404), and a quantity above the product's stock ("Insufficient stock
    available", 400).  Nothing is written in any of these cases. *)
Theorem addItemToCart_refusals userId sessionId productId quantity db :
  CartService.addItemToCart userId sessionId None quantity db
    = (Throw (AppError "Invalid product or quantity" 400), db)
  /\ (quantity <= 0 ->
      CartService.addItemToCart userId sessionId (Some productId) quantity db
      = (Throw (AppError "Invalid product or quantity" 400), db))
  /\ (0 < quantity ->
      findProduct productId (products db) = None ->
      CartService.addItemToCart userId sessionId (Some productId) quantity db
      = (Throw (AppError "Product not found" 404), db))
  /\ (0 < quantity ->
      forall product,
        findProduct productId (products db) = Some product ->
        Product.stock product < quantity ->
        CartService.addItemToCart userId sessionId (Some productId) quantity db
        = (Throw (AppError "Insufficient stock available" 400), db)).
Proof.
  split; [reflexivity|]. unfold CartService.addItemToCart.
  split; [|split].
  - intros Hq. destruct (Z.eqb_spec quantity 0); [reflexivity|].
    destruct (Z.leb_spec quantity 0); [reflexivity | lia].
  - intros Hq Hnone.
    destruct (Z.eqb_spec quantity 0); [lia|].
    destruct (Z.leb_spec quantity 0); [lia|]. cbn [orb].
    unfold bind, Product_findById. rewrite Hnone. reflexivity.
  - intros Hq product Hsome Hshort.
    destruct (Z.eqb_spec quantity 0); [lia|].
    destruct (Z.leb_spec quantity 0); [lia|]. cbn [orb].
    unfold bind, Product_findById. rewrite Hsome.
    apply Z.ltb_lt in Hshort. rewrite Hshort. reflexivity.
Qed.

Lemma addItemToCart_refusals_witness :
  CartService.addItemToCart (Some Scenario.alice) None None 5 Scenario.shopWithCarts
    = (Throw (AppError "Invalid product or quantity" 400), Scenario.shopWithCarts)
  /\ CartService.addItemToCart (Some Scenario.alice) None (Some 1%N) 0
       Scenario.shopWithCarts
     = (Throw (AppError "Invalid product or quantity" 400), Scenario.shopWithCarts)
  /\ CartService.addItemToCart (Some Scenario.alice) None (Some 99%N) 5
       Scenario.shopWithCarts
     = (Throw (AppError "Product not found" 404), Scenario.shopWithCarts)
  /\ CartService.addItemToCart (Some Scenario.alice) None (Some 1%N) 5
       Scenario.shopWithCarts
     = (Throw (AppError "Insufficient stock available" 400),
        Scenario.shopWithCarts).
Proof.
  split; [apply (addItemToCart_refusals (Some Scenario.alice) None 1%N 5)|].
  split; [apply (addItemToCart_refusals (Some Scenario.alice) None 1%N 0
                   Scenario.shopWithCarts); lia|].
  split.
  - apply (addItemToCart_refusals (Some Scenario.alice) None 99%N 5
             Scenario.shopWithCarts); [lia | reflexivity].
  - destruct (addItemToCart_refusals (Some Scenario.alice) None 1%N 5
                Scenario.shopWithCarts) as [_ [_ [_ H]]].
    apply (H ltac:(lia) Scenario.scarceWidget); [reflexivity | vm_compute; reflexivity].
Defined.










Lemma find_updateFirst {A} (f : A -> bool) (g : A -> A) (l : list A) :
  (forall x, f (g x) = f x) ->
  find f (updateFirst f g l) = option_map g (find f l)
  /\ (find f l = None -> updateFirst f g l = l)
  /\ ((forall x, g (g x) = g x) ->
      updateFirst f g (updateFirst f g l) = updateFirst f g l)
  /\ List.length (updateFirst f g l) = List.length l.
Proof.
  intros Hf. induction l as [|a rest [IH1 [IH2 [IH3 IH4]]]]; simpl.
  - auto.
  - destruct (f a) eqn:E; simpl.
    + rewrite Hf, E. repeat split; try discriminate.
      intros Hg. rewrite Hg. reflexivity.
    + rewrite E. repeat split.
      * exact IH1.
      * intros H. rewrite (IH2 H). reflexivity.
      * intros Hg. rewrite (IH3 Hg). reflexivity.
      * rewrite IH4. reflexivity.
Qed.

(** X15. [clearCart] for a registered user empties the user's cart and keeps
    it: afterwards the cart of the user is the same document without lines,
    no cart has been added or removed, and products, orders and payments are
    untouched.  When the user has no cart nothing is written, and clearing
    twice is the same as clearing once. *)
Theorem clearCart_empties userId sessionId db :
  exists db',
    CartService.clearCart (Some userId) sessionId db = (Ok tt, db')
    /\ find (ownedBy userId) (carts db')
       = option_map (fun c => Cart.set_items c [])
                    (find (ownedBy userId) (carts db))
    /\ List.length (carts db') = List.length (carts db)
    /\ products db' = products db
    /\ orders db' = orders db
    /\ payments db' = payments db
    /\ (find (ownedBy userId) (carts db) = None -> db' = db)
    /\ CartService.clearCart (Some userId) sessionId db' = (Ok tt, db').
Proof.
  destruct (find_updateFirst (ownedBy userId) (fun c => Cart.set_items c [])
              (carts db) (fun _ => eq_refl)) as [H1 [H2 [H3 H4]]].
  eexists. split; [reflexivity|].
  cbn [carts products orders payments set_carts].
  split; [exact H1|]. split; [exact H4|].
  split; [reflexivity|]. split; [reflexivity|]. split; [reflexivity|]. split.
  - intros Hnone. rewrite (H2 Hnone). destruct db; reflexivity.
  - unfold CartService.clearCart, Cart_findOneAndUpdate_items, set_carts.
    cbn [carts products orders payments nextId].
    rewrite (H3 (fun _ => eq_refl)). reflexivity.
Qed.

Lemma clearCart_empties_witness :
  exists db',
    CartService.clearCart (Some Scenario.alice) None Scenario.shopWithCarts
      = (Ok tt, db')
    /\ find (ownedBy Scenario.alice) (carts db')
       = Some (Cart.set_items Scenario.aliceCart []).
Proof.
  destruct (clearCart_empties Scenario.alice None Scenario.shopWithCarts)
    as [db' [Hrun [Hfind _]]].
  exists db'. split; [exact Hrun | exact Hfind].
Defined.

Lemma verified_total products lines a :
  (fold_left (fun total v => match v with
                             | Some d => (total + CartService.d_subtotal d)%Q
                             | None => total
                             end)
             (map (CartService.verifyItem products) lines) a
   == a + fold_right (fun d s => CartService.d_subtotal d + s) 0
            (CartService.notNull (map (CartService.verifyItem products) lines)))%Q.
Proof.
  revert a. induction lines as [|item rest IH]; intros a; simpl.
  - ring.
  - rewrite IH. destruct (CartService.verifyItem products item); simpl; ring.
Qed.

Lemma verified_count (l : list CartService.DetailItem) a :
  fold_left (fun sum item => sum + CartService.d_quantity item) l a
  = a + fold_right (fun d s => CartService.d_quantity d + s) 0 l.
Proof.
  revert a. induction l as [|d rest IH]; intros a; simpl; [lia|].
  rewrite IH. lia.
Qed.

Lemma verified_lines products lines :
  Forall (fun d =>
            exists item product,
              In item lines
              /\ findProduct (Cart.productId item) products = Some product
              /\ CartService.d_productId d = Cart.productId item
              /\ CartService.d_stock d = Product.stock product
              /\ CartService.d_quantity d
                 = Z.min (Cart.quantity item) (Product.stock product)
              /\ CartService.d_subtotal d
                 = (inject_Z (CartService.d_quantity d) * CartService.d_price d)%Q)
         (CartService.notNull (map (CartService.verifyItem products) lines)).
Proof.
  induction lines as [|item rest IH]; simpl; [constructor|].
  assert (IH' : Forall (fun d =>
            exists item0 product,
              In item0 (item :: rest)
              /\ findProduct (Cart.productId item0) products = Some product
              /\ CartService.d_productId d = Cart.productId item0
              /\ CartService.d_stock d = Product.stock product
              /\ CartService.d_quantity d
                 = Z.min (Cart.quantity item0) (Product.stock product)
              /\ CartService.d_subtotal d
                 = (inject_Z (CartService.d_quantity d) * CartService.d_price d)%Q)
         (CartService.notNull (map (CartService.verifyItem products) rest))).
  { eapply Forall_impl; [|exact IH]. intros d [i [p [Hin H]]].
    exists i, p. split; [right; exact Hin | exact H]. }
  unfold CartService.verifyItem at 1.
  destruct (findProduct (Cart.productId item) products) as [product|] eqn:E;
    [|exact IH'].
  constructor; [|exact IH'].
  exists item, product. simpl. repeat split; auto.
Qed.

(** X16. [getCartWithDetails] never writes.  Every line it returns belongs to
    a line of the cart whose product still exists, shows that product's
    current stock, and carries the requested quantity cut down to that stock;
    the total is the sum of the returned subtotals and the item count the sum
    of the returned quantities.  Without a cart the answer is empty. *)
Theorem getCartWithDetails_verified userId sessionId db :
  exists d,
    CartService.getCartWithDetails userId sessionId db = (Ok d, db)
    /\ Forall (fun line =>
                 CartService.d_quantity line <= CartService.d_stock line
                 /\ exists product,
                      findProduct (CartService.d_productId line) (products db)
                      = Some product
                      /\ CartService.d_stock line = Product.stock product)
              (CartService.d_items d)
    /\ (CartService.d_total d
        == fold_right (fun line s => CartService.d_subtotal line + s) 0
             (CartService.d_items d))%Q
    /\ CartService.d_itemCount d
       = fold_right (fun line s => CartService.d_quantity line + s) 0
           (CartService.d_items d)
    /\ ((userId = None /\ sessionId = None) ->
        d = CartService.mkDetails [] 0 0).
Proof.
  unfold CartService.getCartWithDetails.
  set (cart := match userId, sessionId with
               | Some u, _ => find (ownedBy u) (carts db)
               | None, Some s => findCart s (carts db)
               | None, None => None
               end).
  assert (Hnone : userId = None /\ sessionId = None -> cart = None).
  { intros [-> ->]. reflexivity. }
  destruct cart as [c|].
  - eexists. split; [reflexivity|]. cbn [CartService.d_items CartService.d_total
                                          CartService.d_itemCount].
    split; [|split; [|split]].
    + eapply Forall_impl; [|apply verified_lines].
      intros d [item [product [_ [Hp [Hid [Hstock [Hq _]]]]]]].
      split; [rewrite Hq, Hstock; lia|].
      exists product. rewrite Hid. auto.
    + rewrite verified_total. ring.
    + rewrite verified_count. lia.
    + intros H. apply Hnone in H. discriminate.
  - eexists. split; [reflexivity|]. simpl.
    split; [constructor|]. split; [reflexivity|]. split; [reflexivity|]. auto.
Qed.




Lemma itemCount_from lines a :
  fold_left (fun count item => count + Cart.quantity item) lines a
  = a + Cart_itemCount lines.
Proof.
  assert (H : forall a b,
             fold_left (fun count item => count + Cart.quantity item) lines (a + b)
             = a + fold_left (fun count item => count + Cart.quantity item) lines b).
  { induction lines as [|item rest IH]; intros x y; simpl; [reflexivity|].
    rewrite <- IH. f_equal. lia. }
  unfold Cart_itemCount. rewrite <- H. f_equal. lia.
Qed.

Lemma itemCount_cons item rest :
  Cart_itemCount (item :: rest) = Cart.quantity item + Cart_itemCount rest.
Proof.
  unfold Cart_itemCount at 1. simpl. rewrite itemCount_from. lia.
Qed.

Lemma itemCount_mergeItem userItems guestItem :
  Cart_itemCount (CartService.mergeItem userItems guestItem)
  = Cart_itemCount userItems + Cart.quantity guestItem.
Proof.
  induction userItems as [|userItem rest IH]; simpl.
  - rewrite itemCount_cons. unfold Cart_itemCount. simpl. lia.
  - destruct (N.eqb (Cart.productId userItem) (Cart.productId guestItem)).
    + rewrite !itemCount_cons. simpl. lia.
    + rewrite !itemCount_cons, IH. lia.
Qed.

(** X18. Merging carts neither loses nor invents units: the item count of
    the merged lines (the cart's [itemCount] virtual) is the item count of
    the user's lines plus that of the guest's lines, for any two carts. *)
Theorem itemCount_mergeItems userItems guestItems :
  Cart_itemCount (CartService.mergeItems userItems guestItems)
  = Cart_itemCount userItems + Cart_itemCount guestItems.
Proof.
  unfold CartService.mergeItems. revert userItems.
  induction guestItems as [|g rest IH]; intros userItems; simpl.
  - unfold Cart_itemCount at 3. simpl. lia.
  - rewrite IH, itemCount_mergeItem, itemCount_cons. lia.
Qed.

Lemma total_from lines a :
  (fold_left (fun total item =>
                total + Cart.priceAtAddition item * inject_Z (Cart.quantity item))
             lines a
   == a + Cart_total lines)%Q.
Proof.
  assert (H : forall a b,
             (fold_left (fun total item =>
                           total + Cart.priceAtAddition item
                                   * inject_Z (Cart.quantity item))
                        lines (a + b)
              == a + fold_left (fun total item =>
                                  total + Cart.priceAtAddition item
                                          * inject_Z (Cart.quantity item))
                               lines b)%Q).
  { induction lines as [|item rest IH]; intros x y; simpl; [reflexivity|].
    rewrite <- IH.
    assert (E : forall u v, (u == v)%Q ->
                  (fold_left (fun total item0 =>
                                total + Cart.priceAtAddition item0
                                        * inject_Z (Cart.quantity item0))
                             rest u
                   == fold_left (fun total item0 =>
                                   total + Cart.priceAtAddition item0
                                           * inject_Z (Cart.quantity item0))
                                rest v)%Q).
    { clear. induction rest as [|i r IHr]; intros u v Huv; simpl; [exact Huv|].
      apply IHr. rewrite Huv. reflexivity. }
    apply E. ring. }
  unfold Cart_total. rewrite <- H.
  assert (E : (a + 0 == a)%Q) by ring.
  revert E. generalize (a + 0)%Q. intros b Hb. clear H.
  revert a b Hb. induction lines as [|i r IHr]; intros u v Huv; simpl.
  - symmetry. exact Huv.
  - apply IHr. rewrite Huv. reflexivity.
Qed.

Lemma total_cons item rest :
  (Cart_total (item :: rest)
   == Cart.priceAtAddition item * inject_Z (Cart.quantity item) + Cart_total rest)%Q.
Proof.
  unfold Cart_total at 1. simpl. rewrite total_from. ring.
Qed.

Lemma orPrice_valid item price :
  Cart_validItem item = true ->
  CartService.orPrice (Cart.priceAtAddition item) price = Cart.priceAtAddition item.
Proof.
  unfold Cart_validItem, CartService.orPrice. intros H.
  apply andb_true_iff in H. destruct H as [_ H]. apply Qle_bool_iff in H.
  destruct (Qeq_bool (Cart.priceAtAddition item) 0) eqn:E; [|reflexivity].
  apply Qeq_bool_iff in E. rewrite E in H. exfalso.
  revert H. unfold Qle. simpl. lia.
Qed.

(** The verified lines of a cart whose lines are all covered by stock. *)
Lemma verified_in_stock products lines :
  forallb (inStock products) lines = true ->
  forallb Cart_validItem lines = true ->
  let verified := CartService.notNull (map (CartService.verifyItem products) lines) in
  map CartService.d_productId verified = map Cart.productId lines
  /\ map CartService.d_quantity verified = map Cart.quantity lines
  /\ map CartService.d_price verified = map Cart.priceAtAddition lines
  /\ (fold_right (fun d s => CartService.d_subtotal d + s) 0 verified
      == Cart_total lines)%Q
  /\ fold_right (fun d s => CartService.d_quantity d + s) 0 verified
     = Cart_itemCount lines.
Proof.
  induction lines as [|item rest IH]; intros Hstock Hvalid.
  - simpl. repeat split; reflexivity.
  - cbn [forallb] in Hstock, Hvalid.
    apply andb_true_iff in Hstock. destruct Hstock as [Hitem Hstock].
    apply andb_true_iff in Hvalid. destruct Hvalid as [Hline Hvalid].
    destruct (IH Hstock Hvalid) as [Hids [Hqs [Hps [Htotal Hcount]]]].
    cbv zeta in *. cbn [map].
    assert (Hstep : CartService.verifyItem products item
                    = Some (CartService.mkDetailItem (Cart.productId item)
                              match findProduct (Cart.productId item) products with
                              | Some product => Product.name product
                              | None => Cart.name item
                              end
                              (Cart.priceAtAddition item) (Cart.quantity item)
                              match findProduct (Cart.productId item) products with
                              | Some product => Product.stock product
                              | None => 0
                              end
                              (inject_Z (Cart.quantity item)
                               * Cart.priceAtAddition item)%Q)).
    { unfold CartService.verifyItem. unfold inStock in Hitem.
      destruct (findProduct (Cart.productId item) products) as [product|];
        [|discriminate].
      apply negb_true_iff, Z.ltb_ge in Hitem.
      rewrite (orPrice_valid item _ Hline), (Z.min_l _ _ Hitem). reflexivity. }
    rewrite Hstep.
    cbn [CartService.notNull map fold_right CartService.d_productId
           CartService.d_quantity CartService.d_price CartService.d_subtotal].
    rewrite Hids, Hqs, Hps, Htotal, Hcount, total_cons, itemCount_cons.
    repeat split; try reflexivity. ring.
Qed.

(** X19. For a cart whose lines satisfy the cart schema and are all covered
    by stock, [getCartWithDetails] reports the cart as it is: the same
    products, quantities and prices line by line, a total equal to the
    [total] virtual of the cart and an item count equal to its [itemCount]
    virtual. *)
Theorem getCartWithDetails_in_stock userId sessionId db cart :
  find (ownedBy userId) (carts db) = Some cart ->
  forallb (inStock (products db)) (Cart.items cart) = true ->
  forallb Cart_validItem (Cart.items cart) = true ->
  exists d,
    CartService.getCartWithDetails (Some userId) sessionId db = (Ok d, db)
    /\ map CartService.d_productId (CartService.d_items d)
       = map Cart.productId (Cart.items cart)
    /\ map CartService.d_quantity (CartService.d_items d)
       = map Cart.quantity (Cart.items cart)
    /\ map CartService.d_price (CartService.d_items d)
       = map Cart.priceAtAddition (Cart.items cart)
    /\ (CartService.d_total d == Cart_total (Cart.items cart))%Q
    /\ CartService.d_itemCount d = Cart_itemCount (Cart.items cart).
Proof.
  intros Hcart Hstock Hvalid.
  destruct (verified_in_stock (products db) (Cart.items cart) Hstock Hvalid)
    as [Hids [Hqs [Hps [Htotal Hcount]]]].
  cbv zeta in *.
  unfold CartService.getCartWithDetails. rewrite Hcart.
  eexists. split; [reflexivity|].
  cbn [CartService.d_items CartService.d_total CartService.d_itemCount].
  split; [exact Hids|]. split; [exact Hqs|]. split; [exact Hps|]. split.
  - rewrite verified_total, Htotal. ring.
  - rewrite verified_count, Hcount. lia.
Qed.

Lemma getCartWithDetails_in_stock_witness :
  exists d,
    CartService.getCartWithDetails (Some Scenario.alice) None Scenario.shopWithCarts
    = (Ok d, Scenario.shopWithCarts)
    /\ (CartService.d_total d == 100)%Q
    /\ CartService.d_itemCount d = 2.
Proof.
  destruct (getCartWithDetails_in_stock Scenario.alice None Scenario.shopWithCarts
              Scenario.aliceCart eq_refl eq_refl eq_refl)
    as [d [Hrun [_ [_ [_ [Htotal Hcount]]]]]].
  exists d. split; [exact Hrun|]. split; [|exact Hcount].
  rewrite Htotal. reflexivity.
Defined.

(** X20. [PaymentService.processRefund] never refunds.  Whatever the
    stored orders, it returns no result and writes nothing: an unknown order
    is "Order not found", an order whose payment is not "paid" is refused, an
    order already "refunded" is refused, and for every other order the save
    is rejected, because the status "refunded" that the function assigns is
    not a status of the order schema. *)
Theorem processRefund_never_refunds now orderId db :
  snd (PaymentService.processRefund now orderId db) = db
  /\ (forall message order,
        fst (PaymentService.processRefund now orderId db)
        <> PaymentService.Returned message order)
  /\ (findOrder orderId (orders db) = None ->
      PaymentService.processRefund now orderId db
      = (PaymentService.Thrown (AppError "Order not found" 404), db))
  /\ (forall order,
        findOrder orderId (orders db) = Some order ->
        Order.status (Order.paymentInfo order) = "paid" ->
        Order.orderStatus order <> "refunded" ->
        PaymentService.processRefund now orderId db
        = (PaymentService.ValidationError ["orderStatus"], db)).
Proof.
  unfold PaymentService.processRefund, Order_findById, Order_findOneById.
  destruct (findOrder orderId (orders db)) as [order|] eqn:Hfind.
  - destruct (String.eqb (Order.status (Order.paymentInfo order)) "paid") eqn:Hpaid;
      cbn [negb].
    + destruct (String.eqb (Order.orderStatus order) "refunded") eqn:Hdone.
      * repeat split; try discriminate.
        intros order' Horder' _ Hnot. injection Horder' as <-.
        apply String.eqb_eq in Hdone. contradiction.
      * repeat split; try discriminate.
    + repeat split; try discriminate.
      intros order' Horder' Hstatus _. injection Horder' as <-.
      rewrite Hstatus in Hpaid. discriminate.
  - repeat split; try discriminate.
Qed.

(** ** Cancelling again *)

(** Saving an order again and running the same update on it again leaves the
    collection as the first save and update left it. *)
Lemma resaved orderId (order1 order2 : Order.t) (sync : Order.t -> Order.t) l :
  Order._id order1 = orderId ->
  Order._id order2 = orderId ->
  sync order2 = sync order1 ->
  (forall o, Order._id (sync o) = Order._id o) ->
  map (fun o => if N.eqb (Order._id o) orderId then sync o else o)
      (replaceById Order._id order2
         (map (fun o => if N.eqb (Order._id o) orderId then sync o else o)
              (replaceById Order._id order1 l)))
  = map (fun o => if N.eqb (Order._id o) orderId then sync o else o)
        (replaceById Order._id order1 l).
Proof.
  intros H1 H2 Hsync Hid. unfold replaceById. rewrite !map_map.
  apply map_ext. intros o. rewrite H1, H2.
  destruct (N.eqb (Order._id o) orderId) eqn:E.
  - rewrite H1, N.eqb_refl, Hid, H1, N.eqb_refl, H2, N.eqb_refl. exact Hsync.
  - rewrite E, E, E. reflexivity.
Qed.

(** X25. Cancelling does not close an order for cancellation, yet refunds it
    once.  For an order of the caller that is not marked "cancelled", when no
    payment without payment details is stored, a [cancelOrder] inside the
    window succeeds, stores one refund payment (order, user, status
    "refunded") and leaves the stored status at "refunded" and the products
    as they were.  A second [cancelOrder] inside the window is not stopped by
    the guard: it fails at the insert of its refund payment with the
    duplicate-key error 11000, and the database is exactly what the first
    call left. *)
Theorem cancelOrder_repeats now now' userId orderId db order :
  findOwnedOrder orderId userId (orders db) = Some order ->
  Order.orderStatus order <> "cancelled" ->
  now - Order.createdAt order <= 24 * 60 * 60 * 1000 ->
  now' - Order.createdAt order <= 24 * 60 * 60 * 1000 ->
  existsb bare (payments db) = false ->
  exists db1,
    OrderService.cancelOrder now userId orderId db
      = (Ok ("Order cancelled and 98% refunded", OrderService.refundAmount order),
         db1)
    /\ payments db1
       = payments db ++ [Payment.mk (nextId db) orderId userId "refunded" None]
    /\ (exists order', findOwnedOrder orderId userId (orders db1) = Some order'
                       /\ Order.orderStatus order' = "refunded")
    /\ products db1 = products db
    /\ OrderService.cancelOrder now' userId orderId db1
       = (Throw (MongoServerError 11000 "paymentDetails.transactionId_1"), db1).
Proof.
  intros Hfind Hstatus Hearly Hearly' Hfree.
  destruct (findOwnedOrder_Some _ _ _ _ Hfind) as [Hin [Hid Huser]].
  rewrite (cancelOrder_run now userId orderId db order Hfind Hstatus Hearly).
  cbv zeta. rewrite Hfree.
  set (order1 := Order.set_orderStatus order "cancelled").
  set (sync := Order.apply (Order.mkUpdate (Some "refunded") (Some "refunded"))).
  set (refund := Payment.mk (nextId db) orderId userId "refunded" None).
  set (db1 := bump (set_payments (set_orders db _) (payments db ++ [refund]))).
  assert (Hafter : findOwnedOrder orderId userId (orders db1)
                   = Some (sync order1)).
  { cbn [db1 orders bump set_payments set_orders].
    rewrite findOwnedOrder_updated by (intros o; split; reflexivity).
    rewrite (findOwnedOrder_saved _ _ _ order order1); auto. }
  exists db1. split; [reflexivity|]. split; [reflexivity|].
  split; [exists (sync order1); auto|]. split; [reflexivity|].
  rewrite (cancelOrder_run now' userId orderId db1 (sync order1) Hafter);
    [|discriminate | exact Hearly'].
  cbv zeta.
  assert (Hbare : existsb bare (payments db1) = true).
  { cbn [db1 payments bump set_payments set_orders].
    apply existsb_bare_app. reflexivity. }
  rewrite Hbare. f_equal.
  transitivity (set_orders db1 (orders db1)); [|reflexivity].
  apply f_equal.
  apply (resaved orderId order1 (Order.set_orderStatus (sync order1) "cancelled")
           sync (orders db)); auto.
Qed.

Lemma cancelOrder_repeats_witness :
  exists db1,
    OrderService.cancelOrder Scenario.t1 Scenario.alice 11%N Scenario.shopAfterOrder
      = (Ok ("Order cancelled and 98% refunded",
             OrderService.refundAmount Scenario.placed), db1)
    /\ payments db1
       = payments Scenario.shopAfterOrder
         ++ [Payment.mk 12%N 11%N Scenario.alice "refunded" None]
    /\ OrderService.cancelOrder (Scenario.t1 + 1000) Scenario.alice 11%N db1
       = (Throw (MongoServerError 11000 "paymentDetails.transactionId_1"), db1).
Proof.
  destruct (cancelOrder_repeats Scenario.t1 (Scenario.t1 + 1000) Scenario.alice
              11%N Scenario.shopAfterOrder Scenario.placed)
    as [db1 [Hrun [Hpayments [_ [_ Hagain]]]]];
    [reflexivity | discriminate | vm_compute; discriminate
    | vm_compute; discriminate | reflexivity |].
  exists db1. split; [exact Hrun|]. split; [exact Hpayments | exact Hagain].
Defined.

(** ** The order controller *)

(** X21. For an order id that no stored order carries, the controllers of
    the four order operations hand different statuses to the error
    middleware: [cancelOrder] and [completePayment] keep the service's 404,
    while [updateOrder] and [deleteOrder] replace it by 500; the message is
    "Order not found" in all four and nothing is written. *)
Theorem controllers_on_missing_order now userId orderId status db :
  (forall o, In o (orders db) -> Order._id o <> orderId) ->
  OrderController.cancelOrder now userId orderId db
    = (Throw (AppError "Order not found" 404), db)
  /\ OrderController.completePayment now userId orderId db
     = (Throw (AppError "Order not found" 404), db)
  /\ OrderController.updateOrder now orderId status db
     = (Throw (AppError "Order not found" 500), db)
  /\ OrderController.deleteOrder orderId db
     = (Throw (AppError "Order not found" 500), db).
Proof.
  intros Hmissing.
  assert (Hmine : findOwnedOrder orderId userId (orders db) = None).
  { apply findOwnedOrder_foreign. intros o Hin Hid. exfalso.
    apply (Hmissing o Hin Hid). }
  assert (Hany : findOrder orderId (orders db) = None).
  { apply find_false. intros o Hin. apply N.eqb_neq. apply (Hmissing o Hin). }
  unfold OrderController.cancelOrder, OrderController.completePayment,
    OrderController.updateOrder, OrderController.deleteOrder,
    OrderController.forward, OrderController.forward500,
    OrderService.cancelOrder, OrderService.completePayment,
    OrderService.updateOrderStatus, OrderService.deleteOrder,
    bind, Order_findOne, Order_findById, Order_findOneById.
  rewrite Hmine, Hany. repeat split.
Qed.

Lemma controllers_on_missing_order_witness :
  OrderController.cancelOrder Scenario.t1 Scenario.alice 99%N Scenario.shopAfterOrder
    = (Throw (AppError "Order not found" 404), Scenario.shopAfterOrder)
  /\ OrderController.completePayment Scenario.t1 Scenario.alice 99%N
       Scenario.shopAfterOrder
     = (Throw (AppError "Order not found" 404), Scenario.shopAfterOrder)
  /\ OrderController.updateOrder Scenario.t1 99%N "shipped" Scenario.shopAfterOrder
     = (Throw (AppError "Order not found" 500), Scenario.shopAfterOrder)
  /\ OrderController.deleteOrder 99%N Scenario.shopAfterOrder
     = (Throw (AppError "Order not found" 500), Scenario.shopAfterOrder).
Proof.
  apply (controllers_on_missing_order Scenario.t1 Scenario.alice 99%N "shipped"
           Scenario.shopAfterOrder).
  simpl. intros o [<-|[]]. vm_compute. discriminate.
Defined.

(** ** Reviews *)

Lemma ratings_from (l : list Review.t) a :
  (fold_left (fun acc item => Review.rating item + acc) l a
   == a + fold_right (fun item s => Review.rating item + s) 0 l)%Q.
Proof.
  revert a. induction l as [|r rest IH]; intros a; simpl.
  - ring.
  - rewrite IH. ring.
Qed.

Lemma ratings_bounded lo hi (l : list Review.t) :
  (forall r, In r l -> (lo <= Review.rating r <= hi)%Q) ->
  (lo * inject_Z (Z.of_nat (List.length l))
   <= fold_right (fun item s => Review.rating item + s) 0 l
   <= hi * inject_Z (Z.of_nat (List.length l)))%Q.
Proof.
  induction l as [|r rest IH]; intros H.
  - simpl. split; ring_simplify; apply Qle_refl.
  - cbn [List.length fold_right]. rewrite Nat2Z.inj_succ.
    unfold Z.succ. rewrite inject_Z_plus.
    destruct IH as [IHlo IHhi]; [intros x Hx; apply H; right; exact Hx|].
    destruct (H r (or_introl eq_refl)) as [Hlo Hhi].
    set (n := inject_Z (Z.of_nat (List.length rest))) in *.
    set (s := fold_right _ _ rest) in *.
    change (inject_Z 1) with 1%Q.
    split; ring_simplify; lra.
Qed.

Lemma find_doc_replaced productId (product product' : ProductService.Doc) catalog :
  find (fun p => N.eqb (ProductService._id p) productId) catalog = Some product ->
  ProductService._id product' = productId ->
  find (fun p => N.eqb (ProductService._id p) productId)
       (replaceById ProductService._id product' catalog) = Some product'.
Proof.
  intros Hfind Hid. destruct (find_some _ _ Hfind) as [Hin Hp].
  apply N.eqb_eq in Hp. rewrite <- Hid.
  apply find_replaceById. exists product. split; [exact Hin | congruence].
Qed.

(** What [createProductReview] stores for a user who has not reviewed the
    product. *)
Lemma createProductReview_run productId userId userName rating comment
  catalog product :
  find (fun p => N.eqb (ProductService._id p) productId) catalog = Some product ->
  find (fun r => N.eqb (Review.user r) userId) (ProductService.reviews product)
    = None ->
  Qle_bool 0 (ProductService.price product) = true ->
  let reviews' :=
    ProductService.reviews product ++ [Review.mk userId userName rating comment] in
  let product' :=
    ProductService.mkDoc (ProductService._id product)
      (ProductService.price product) reviews'
      (Z.of_nat (List.length reviews')) (ProductService.average reviews') in
  ProductService.createProductReview productId userId userName rating comment
    catalog
  = (Ok tt, replaceById ProductService._id product' catalog)
  /\ find (fun p => N.eqb (ProductService._id p) productId)
          (replaceById ProductService._id product' catalog)
     = Some product'.
Proof.
  intros Hfind Hnew Hprice reviews' product'.
  destruct (find_some _ _ Hfind) as [_ Hid]. apply N.eqb_eq in Hid.
  assert (Hlen : 0 < Z.of_nat (List.length reviews')).
  { unfold reviews'. rewrite length_app. simpl. lia. }
  split.
  - unfold ProductService.createProductReview. rewrite Hfind, Hnew.
    fold reviews'. unfold ProductService.preSave.
    cbn [ProductService.price ProductService.reviews ProductService._id].
    rewrite Hprice. apply Z.ltb_lt in Hlen. rewrite Hlen. reflexivity.
  - apply (find_doc_replaced _ product); [exact Hfind | exact Hid].
Qed.

(** X22. One review per user and product.  For a user who has not reviewed
    the product and a review that satisfies the review schema,
    [createProductReview] appends the review to the product's reviews and
    stores their number; [getProductReviews] then returns the reviews with
    the new one last, and every later review of the same product by the same
    user is refused with "Product already reviewed" and changes nothing. *)
Theorem createProductReview_once productId userId userName rating comment
  catalog product :
  find (fun p => N.eqb (ProductService._id p) productId) catalog = Some product ->
  find (fun r => N.eqb (Review.user r) userId) (ProductService.reviews product)
    = None ->
  Qle_bool 0 (ProductService.price product) = true ->
  forallb Review.valid (ProductService.reviews product) = true ->
  Review.valid (Review.mk userId userName rating comment) = true ->
  exists product' catalog',
    ProductService.createProductReview productId userId userName rating comment
      catalog = (Ok tt, catalog')
    /\ find (fun p => N.eqb (ProductService._id p) productId) catalog'
       = Some product'
    /\ ProductService.reviews product'
       = ProductService.reviews product
         ++ [Review.mk userId userName rating comment]
    /\ ProductService.numReviews product'
       = Z.of_nat (List.length (ProductService.reviews product)) + 1
    /\ ProductService.getProductReviews productId catalog'
       = Ok (ProductService.reviews product
             ++ [Review.mk userId userName rating comment])
    /\ forall userName' rating' comment',
         ProductService.createProductReview productId userId userName' rating'
           comment' catalog'
         = (Throw (AppError "Product already reviewed" 400), catalog').
Proof.
  intros Hfind Hnew Hprice Hvalid Hreview.
  destruct (createProductReview_run productId userId userName rating comment
              catalog product Hfind Hnew Hprice) as [Hrun Hstored].
  cbv zeta in Hrun, Hstored.
  do 2 eexists. split; [exact Hrun|]. split; [exact Hstored|].
  split; [reflexivity|]. split.
  { cbn [ProductService.numReviews]. rewrite length_app. simpl. lia. }
  split.
  { unfold ProductService.getProductReviews. rewrite Hstored. reflexivity. }
  intros userName' rating' comment'.
  unfold ProductService.createProductReview. rewrite Hstored.
  cbn [ProductService.reviews].
  rewrite (find_last _ _ (Review.mk userId userName rating comment) Hnew
             (N.eqb_refl userId)).
  reflexivity.
Qed.

Lemma createProductReview_once_witness :
  exists product' catalog',
    ProductService.createProductReview 1%N Scenario.alice "Alice" 5 "Great"
      [Scenario.reviewedWidget] = (Ok tt, catalog')
    /\ find (fun p => N.eqb (ProductService._id p) 1%N) catalog' = Some product'
    /\ ProductService.reviews product'
       = [Scenario.bobsReview; Review.mk Scenario.alice "Alice" 5 "Great"]
    /\ ProductService.numReviews product' = 2
    /\ ProductService.getProductReviews 1%N catalog'
       = Ok [Scenario.bobsReview; Review.mk Scenario.alice "Alice" 5 "Great"]
    /\ forall userName' rating' comment',
         ProductService.createProductReview 1%N Scenario.alice userName' rating'
           comment' catalog'
         = (Throw (AppError "Product already reviewed" 400), catalog').
Proof.
  apply (createProductReview_once 1%N Scenario.alice "Alice" 5 "Great"
           [Scenario.reviewedWidget] Scenario.reviewedWidget); reflexivity.
Defined.

Lemma valid_rating r :
  Review.valid r = true -> (1 <= Review.rating r <= 5)%Q.
Proof.
  unfold Review.valid. intros H.
  apply andb_true_iff in H. destruct H as [H Hmax].
  apply andb_true_iff in H. destruct H as [_ Hmin].
  split; apply Qle_bool_iff; assumption.
Qed.

(** X23. The rating of a product is the mean of its reviews and stays within
    the scale, the ratings being taken as exact numbers.  After a successful
    [createProductReview] on a product whose reviews satisfy the review
    schema, the stored rating times the stored number of reviews is the sum
    of the ratings of all reviews, the stored rating lies between 1 and 5 (so
    the product schema's own bound on the rating, 0 to 5, is met), and all
    reviews still satisfy the review schema. *)
Theorem createProductReview_rating productId userId userName rating comment
  catalog product :
  find (fun p => N.eqb (ProductService._id p) productId) catalog = Some product ->
  find (fun r => N.eqb (Review.user r) userId) (ProductService.reviews product)
    = None ->
  Qle_bool 0 (ProductService.price product) = true ->
  forallb Review.valid (ProductService.reviews product) = true ->
  Review.valid (Review.mk userId userName rating comment) = true ->
  exists product' catalog',
    ProductService.createProductReview productId userId userName rating comment
      catalog = (Ok tt, catalog')
    /\ find (fun p => N.eqb (ProductService._id p) productId) catalog'
       = Some product'
    /\ (ProductService.rating product' * inject_Z (ProductService.numReviews product')
        == fold_right (fun item s => Review.rating item + s) 0
             (ProductService.reviews product'))%Q
    /\ (1 <= ProductService.rating product' <= 5)%Q
    /\ forallb Review.valid (ProductService.reviews product') = true.
Proof.
  intros Hfind Hnew Hprice Hvalid Hreview.
  destruct (createProductReview_run productId userId userName rating comment
              catalog product Hfind Hnew Hprice) as [Hrun Hstored].
  cbv zeta in Hrun, Hstored.
  set (reviews' := ProductService.reviews product
                   ++ [Review.mk userId userName rating comment]) in *.
  assert (Hall : forallb Review.valid reviews' = true).
  { unfold reviews'. rewrite forallb_app, Hvalid. cbn [forallb].
    rewrite Hreview. reflexivity. }
  assert (Hpos : (0 < inject_Z (Z.of_nat (List.length reviews')))%Q).
  { unfold reviews'. rewrite length_app. unfold Qlt. simpl. lia. }
  assert (Hnz : ~ (inject_Z (Z.of_nat (List.length reviews')) == 0)%Q).
  { intros Hz. rewrite Hz in Hpos. apply (Qlt_irrefl 0). exact Hpos. }
  destruct (ratings_bounded 1 5 reviews') as [Hlo Hhi].
  { intros r Hr. apply valid_rating.
    rewrite forallb_forall in Hall. apply Hall. exact Hr. }
  do 2 eexists. split; [exact Hrun|]. split; [exact Hstored|].
  cbn [ProductService.rating ProductService.numReviews ProductService.reviews].
  split; [|split; [|exact Hall]].
  - unfold ProductService.average. rewrite ratings_from. field. exact Hnz.
  - unfold ProductService.average. rewrite ratings_from.
    split.
    + apply Qle_shift_div_l; [exact Hpos|]. rewrite Qplus_0_l. exact Hlo.
    + apply Qle_shift_div_r; [exact Hpos|]. rewrite Qplus_0_l. exact Hhi.
Qed.

Lemma createProductReview_rating_witness :
  exists product' catalog',
    ProductService.createProductReview 1%N Scenario.alice "Alice" 5 "Great"
      [Scenario.reviewedWidget] = (Ok tt, catalog')
    /\ find (fun p => N.eqb (ProductService._id p) 1%N) catalog' = Some product'
    /\ (ProductService.rating product' * inject_Z (ProductService.numReviews product')
        == fold_right (fun item s => Review.rating item + s) 0
             (ProductService.reviews product'))%Q
    /\ (1 <= ProductService.rating product' <= 5)%Q
    /\ forallb Review.valid (ProductService.reviews product') = true.
Proof.
  apply (createProductReview_rating 1%N Scenario.alice "Alice" 5 "Great"
           [Scenario.reviewedWidget] Scenario.reviewedWidget); reflexivity.
Defined.
